(** * MetaZebrobot: the survivability export pipeline

    A shallow embedding of [src/metazebrobot/utils/export_module.py]
    (class [SurvivabilityExporter]) and the properties of its detailed and
    summary reports.

    Conventions of the embedding.
    - A dish is the parsed JSON mapping of one dish file.  Its keys carry the
      types of the data model; a key that is absent is [None], so that every
      [dict.get(key, default)] of the source is a [match] on an option.
    - Python [int] is [Z].  Python's true division [a / b] of two ints and the
      product with [100] are taken exactly, in [Q]; rounding to binary64 is
      not part of the model.
    - [str] is [string]; [<] and [>] on [str] are the code-point order
      [String.compare].
    - A [dict] that is iterated is an association list in insertion order.
    - [list.sort(key=...)] is stable; it is embedded as a stable insertion
      sort.
    - A [try: ... except Exception] block is a [match] on a [result]. *)

From Stdlib Require Import List ZArith QArith String Ascii Bool Lia.
From Stdlib Require Import Sorted Permutation.
Import ListNotations.

Local Open Scope string_scope.
Local Open Scope Z_scope.

(** ** Exceptions *)

Inductive exn : Type :=
| ZeroDivisionError
| ValueError
| NameError
| OSError
| JSONDecodeError.

Inductive result (A : Type) : Type :=
| Ok (a : A)
| Raise (e : exn).

Arguments Ok {A} a.
Arguments Raise {A} e.

Definition bind {A B : Type} (m : result A) (k : A -> result B) : result B :=
  match m with
  | Ok a => k a
  | Raise e => Raise e
  end.

Notation "x <- m ;; k" := (bind m (fun x => k))
  (at level 61, m at next level, right associativity).

(** [try: body except Exception: handler] *)
Definition try_except {A : Type} (body : result A) (handler : exn -> A) : A :=
  match body with
  | Ok a => a
  | Raise e => handler e
  end.

(** ** Python numbers and values that reach a report cell *)

Inductive pynum : Type :=
| PyInt (z : Z)
| PyFloat (q : Q).

#[warnings="-register-all"]
Inductive pyval : Type :=
| PyStr (s : string)
| PyTuple (items : list pyval).

(** [a / b] on ints. *)
Definition truediv (a b : Z) : result Q :=
  if b =? 0 then Raise ZeroDivisionError
  else Ok (inject_Z a / inject_Z b)%Q.

(** ** Strings *)

(** [c in s] for a one-character [c]. *)
Fixpoint contains (c : ascii) (s : string) : bool :=
  match s with
  | EmptyString => false
  | String a s' => if Ascii.eqb a c then true else contains c s'
  end.

(** [s[:n]] *)
Fixpoint slice_to (n : nat) (s : string) : string :=
  match n, s with
  | O, _ => EmptyString
  | S _, EmptyString => EmptyString
  | S n', String a s' => String a (slice_to n' s')
  end.

(** Truth value of a [str]. *)
Definition str_truthy (s : string) : bool :=
  match s with
  | EmptyString => false
  | String _ _ => true
  end.

(** [a > b] on [str]. *)
Definition str_gt (a b : string) : bool := String.ltb b a.

(** ** [datetime.strptime(s, "%Y%m%d")]

    The format is compiled by CPython's [_strptime] to the regular expression
    [(?P<Y>\d\d\d\d)(?P<m>1[0-2]|0[1-9]|[1-9])(?P<d>3[0-1]|[1-2]\d|0[1-9]|[1-9]| [1-9])],
    matched at the start of the string with ordered alternatives; the match
    has to end at the end of the string, and the three numbers have to form a
    date of the proleptic Gregorian calendar with [1 <= year <= 9999]. *)

Definition digit_of (c : ascii) : option Z :=
  let n := Z.of_N (N_of_ascii c) in
  if (48 <=? n) && (n <=? 57) then Some (n - 48) else None.

Definition digit_in (lo hi : Z) (c : ascii) : option Z :=
  match digit_of c with
  | Some v => if (lo <=? v) && (v <=? hi) then Some v else None
  | None => None
  end.

(** [\d\d\d\d] *)
Definition match_Y (s : string) : option (Z * string) :=
  match s with
  | String a (String b (String c (String d rest))) =>
      match digit_of a, digit_of b, digit_of c, digit_of d with
      | Some x, Some y, Some z, Some w =>
          Some (x * 1000 + y * 100 + z * 10 + w, rest)
      | _, _, _, _ => None
      end
  | _ => None
  end.

(** Two characters: the first one fixed, the second a digit of a range. *)
Definition two_chars (first : ascii) (lo hi : Z) (s : string)
  : option (Z * string) :=
  match s with
  | String a (String b rest) =>
      if Ascii.eqb a first then
        match digit_of first, digit_in lo hi b with
        | Some x, Some y => Some (x * 10 + y, rest)
        | None, Some y => Some (y, rest)
        | _, None => None
        end
      else None
  | _ => None
  end.

(** One character: a digit of a range. *)
Definition one_char (lo hi : Z) (s : string) : option (Z * string) :=
  match s with
  | String a rest =>
      match digit_in lo hi a with
      | Some x => Some (x, rest)
      | None => None
      end
  | EmptyString => None
  end.

(** The alternatives of [%m], in the order of the regular expression. *)
Definition alternatives_m : list (string -> option (Z * string)) :=
  [ two_chars "1"%char 0 2; two_chars "0"%char 1 9; one_char 1 9 ].

(** The alternatives of [%d]. *)
Definition alternatives_d : list (string -> option (Z * string)) :=
  [ two_chars "3"%char 0 1; two_chars "1"%char 0 9; two_chars "2"%char 0 9;
    two_chars "0"%char 1 9; one_char 1 9; two_chars " "%char 1 9 ].

(** The first alternative that matches and whose continuation matches. *)
Fixpoint first_match {A : Type} (alts : list (string -> option (Z * string)))
  (k : Z -> string -> option A) (s : string) : option A :=
  match alts with
  | [] => None
  | alt :: alts' =>
      match alt s with
      | Some (v, rest) =>
          match k v rest with
          | Some r => Some r
          | None => first_match alts' k s
          end
      | None => first_match alts' k s
      end
  end.

(** [re.match]: year, month, day and the text left over. *)
Definition regex_match (s : string) : option (Z * Z * Z * string) :=
  match match_Y s with
  | Some (y, rest) =>
      first_match alternatives_m
        (fun m rest' =>
           first_match alternatives_d
             (fun d rest'' => Some (y, m, d, rest'')) rest')
        rest
  | None => None
  end.

Definition is_leap (y : Z) : bool :=
  (y mod 4 =? 0) && (negb (y mod 100 =? 0) || (y mod 400 =? 0)).

Definition days_in_month (y m : Z) : Z :=
  if m =? 2 then (if is_leap y then 29 else 28)
  else if (m =? 4) || (m =? 6) || (m =? 9) || (m =? 11) then 30
  else 31.

Definition days_before_year (y : Z) : Z :=
  let p := y - 1 in p * 365 + p / 4 - p / 100 + p / 400.

Fixpoint days_before_month_aux (y : Z) (months : nat) : Z :=
  match months with
  | O => 0
  | S k => days_before_month_aux y k + days_in_month y (Z.of_nat (S k))
  end.

Definition days_before_month (y m : Z) : Z :=
  days_before_month_aux y (Z.to_nat (m - 1)).

Record date : Type := mkdate { year : Z; month : Z; day : Z }.

(** [date.toordinal()] *)
Definition toordinal (d : date) : Z :=
  days_before_year (year d) + days_before_month (year d) (month d) + day d.

Definition strptime (s : string) : result date :=
  match regex_match s with
  | None => Raise ValueError
  | Some (y, m, d, rest) =>
      if str_truthy rest then Raise ValueError
      else if (1 <=? y) && (1 <=? d) && (d <=? days_in_month y m)
           then Ok (mkdate y m d)
           else Raise ValueError
  end.

(** ** [_calculate_days_between] *)

Definition _calculate_days_between (date1 date2 : string) : Z :=
  try_except
    (d1 <- strptime date1 ;;
     d2 <- strptime date2 ;;
     Ok (toordinal d2 - toordinal d1))
    (fun _ => 0).

(** ** The data model: dish files *)

(** [d.get(key, default)] on a key of type [A]. *)
Definition get {A : Type} (value : option A) (default : A) : A :=
  match value with
  | Some a => a
  | None => default
  end.

(** A structured quality check.  The keys [fed], [feed_type] and [notes] of
    the data model are never read by the exporter and are left out. *)
Module Check.
Record t : Type := mk {
  num_dead : option Z;
  water_changed : option bool;
  vol_water_changed : option Z
}.
End Check.

(** An entry of [quality_checks]: an object, a legacy free-text string, or
    any other JSON value. *)
Inductive check : Type :=
| Structured (c : Check.t)
| Legacy (text : string)
| Malformed.

Module Enclosure.
Record t : Type := mk {
  in_beaker : option bool;
  room : option string;
  vol_water_total : option Z
}.
(** [{}] *)
Definition empty : t := mk None None None.
End Enclosure.

Module Dish.
Record t : Type := mk {
  dish_id : option string;
  cross_id : option string;
  date_created : option string;
  dof : option string;
  genotype : option string;
  fish_count : option Z;
  status : option string;
  termination_date : option string;
  termination_reason : option string;
  responsible : option string;
  enclosure : option Enclosure.t;
  quality_checks : option (list (string * check))
}.
End Dish.

(** One element of [check_data]. *)
Module Datum.
Record t : Type := mk {
  date : string;
  num_dead : Z;
  water_changed : bool;
  vol_water_changed : Z
}.
End Datum.

(** One row of the detailed report; the fields are the keys of the [row]
    dictionary, in its order. *)
Module Row.
Record t : Type := mk {
  dish_id : string;
  cross_id : string;
  genotype : string;
  date_fertilized : string;
  date_created : string;
  initial_count : Z;
  check_date : string;
  fish_deaths : Z;
  cumulative_deaths : Z;
  remaining : Z;
  survival_rate : pynum;
  days_since_fertilization : Z;
  status : string;
  termination_date : string;
  termination_reason : string;
  responsible : string;
  in_beaker : string;
  vol_water_total : Z;
  room : pyval;
  water_changed : string;
  vol_water_changed : Z
}.

Definition keys : list string :=
  [ "dish_id"; "cross_id"; "genotype"; "date_fertilized"; "date_created";
    "initial_count"; "check_date"; "fish_deaths"; "cumulative_deaths";
    "remaining"; "survival_rate"; "days_since_fertilization"; "status";
    "termination_date"; "termination_reason"; "responsible"; "in_beaker";
    "vol_water_total"; "room"; "water_changed"; "vol_water_changed" ].
End Row.

(** ** Stable sorting: [list.sort(key=...)] *)

Section StableSort.
Context {A K : Type} (key : A -> K) (lt : K -> K -> bool).

(** [x] stood before every element of [l]: it goes in front of the first
    element whose key is not smaller than its own. *)
Fixpoint insert (x : A) (l : list A) : list A :=
  match l with
  | [] => [x]
  | y :: l' => if lt (key y) (key x) then y :: insert x l' else x :: y :: l'
  end.

Fixpoint sort (l : list A) : list A :=
  match l with
  | [] => []
  | x :: l' => insert x (sort l')
  end.
End StableSort.

(** [a] may stand before [b] in a sorted list: the key of [b] is not
    smaller. *)
Definition not_after {A K : Type} (key : A -> K) (lt : K -> K -> bool)
  (a b : A) : Prop :=
  lt (key b) (key a) = false.

(** ** [_process_survivability_data] *)

(** The date of a check, lines 173-184 and 189. *)
Definition check_date_of (check_time : string) (c : check) : string :=
  match c with
  | Structured _ =>
      if contains ":"%char check_time then slice_to 8 check_time
      else check_time
  | _ => check_time
  end.

(** The loop of lines 163-201. *)
Fixpoint collect_check_data (items : list (string * check)) : list Datum.t :=
  match items with
  | [] => []
  | (check_time, c) :: rest =>
      match c with
      | Structured k =>
          let num_dead := get (Check.num_dead k) 0 in
          let water_changed := get (Check.water_changed k) false in
          let vol_water_changed :=
            if water_changed then get (Check.vol_water_changed k) 0 else 0 in
          Datum.mk (check_date_of check_time c) num_dead water_changed
            vol_water_changed :: collect_check_data rest
      | Legacy _ =>
          Datum.mk (check_date_of check_time c) 0 false 0
            :: collect_check_data rest
      | Malformed => collect_check_data rest
      end
  end.

(** [x or ''] *)
Definition or_empty (x : option string) : string :=
  match x with
  | Some s => if str_truthy s then s else ""
  | None => ""
  end.

Definition yes_no (b : bool) : string := if b then "Yes" else "No".

(** [(remaining / initial_count * 100) if initial_count > 0 else 0] *)
Definition survival_rate_of (remaining initial_count : Z) : result pynum :=
  if initial_count >? 0 then
    q <- truediv remaining initial_count ;;
    Ok (PyFloat (q * 100)%Q)
  else Ok (PyInt 0).

(** The dictionary built at lines 213-235.  [room] was bound at line 152 by
    [room = enclosure.get('room', 'unknown'),] and the trailing comma makes
    it a tuple of one element. *)
Definition make_row (dish : Dish.t) (remaining : Z) (c : Datum.t)
  : result Row.t :=
  let dof := get (Dish.dof dish) "unknown" in
  let initial_count := get (Dish.fish_count dish) 0 in
  let enclosure := get (Dish.enclosure dish) Enclosure.empty in
  let in_beaker := get (Enclosure.in_beaker enclosure) false in
  let room := PyTuple [PyStr (get (Enclosure.room enclosure) "unknown")] in
  let total_volume := get (Enclosure.vol_water_total enclosure) 0 in
  rate <- survival_rate_of remaining initial_count ;;
  Ok {| Row.dish_id := get (Dish.dish_id dish) "unknown";
        Row.cross_id := get (Dish.cross_id dish) "unknown";
        Row.genotype := get (Dish.genotype dish) "unknown";
        Row.date_fertilized := dof;
        Row.date_created := get (Dish.date_created dish) "unknown";
        Row.initial_count := initial_count;
        Row.check_date := Datum.date c;
        Row.fish_deaths := Datum.num_dead c;
        Row.cumulative_deaths := initial_count - remaining;
        Row.remaining := remaining;
        Row.survival_rate := rate;
        Row.days_since_fertilization :=
          _calculate_days_between dof (Datum.date c);
        Row.status := get (Dish.status dish) "unknown";
        Row.termination_date := or_empty (Dish.termination_date dish);
        Row.termination_reason := or_empty (Dish.termination_reason dish);
        Row.responsible := get (Dish.responsible dish) "unknown";
        Row.in_beaker := yes_no in_beaker;
        Row.vol_water_total := total_volume;
        Row.room := room;
        Row.water_changed := yes_no (Datum.water_changed c);
        Row.vol_water_changed := Datum.vol_water_changed c |}.

(** The loop of lines 207-236: the rows appended to [report_rows], and the
    exception that ended the loop, if one did. *)
Fixpoint emit_rows (dish : Dish.t) (remaining : Z) (check_data : list Datum.t)
  : list Row.t * option exn :=
  match check_data with
  | [] => ([], None)
  | c :: rest =>
      let remaining := remaining - Datum.num_dead c in
      match make_row dish remaining c with
      | Raise e => ([], Some e)
      | Ok row =>
          let (rows, e) := emit_rows dish remaining rest in
          (row :: rows, e)
      end
  end.

(** The body of the [try] of one dish, lines 136-236. *)
Definition dish_body (dish : Dish.t) : list Row.t * option exn :=
  let initial_count := get (Dish.fish_count dish) 0 in
  let quality_checks := get (Dish.quality_checks dish) [] in
  match quality_checks with
  | [] => ([], None)
  | _ :: _ =>
      let check_data := collect_check_data quality_checks in
      let check_data := sort Datum.date String.ltb check_data in
      emit_rows dish initial_count check_data
  end.

(** The rows one dish adds to the report; an exception is logged and the
    loop goes on with the next dish. *)
Definition dish_rows (dish : Dish.t) : list Row.t := fst (dish_body dish).

Definition _process_survivability_data (dishes_data : list Dish.t)
  : list Row.t :=
  fold_left (fun report_rows dish => (report_rows ++ dish_rows dish)%list)
    dishes_data [].

(** ** [_process_summary_data] *)

(** One row of the summary report: the dictionary of lines 358-367. *)
Module Summary.
Record t : Type := mk {
  cross_id : string;
  genotype : string;
  date_fertilized : string;
  dish_count : Z;
  total_initial : Z;
  total_surviving : Z;
  survival_rate : pynum;
  max_days : Z
}.

Definition keys : list string :=
  [ "cross_id"; "genotype"; "date_fertilized"; "dish_count";
    "total_initial"; "total_surviving"; "survival_rate"; "max_days" ].

Definition set_dish_count (v : Z) (g : t) : t :=
  mk (cross_id g) (genotype g) (date_fertilized g) v (total_initial g)
    (total_surviving g) (survival_rate g) (max_days g).

Definition set_total_initial (v : Z) (g : t) : t :=
  mk (cross_id g) (genotype g) (date_fertilized g) (dish_count g) v
    (total_surviving g) (survival_rate g) (max_days g).

Definition set_total_surviving (v : Z) (g : t) : t :=
  mk (cross_id g) (genotype g) (date_fertilized g) (dish_count g)
    (total_initial g) v (survival_rate g) (max_days g).

Definition set_survival_rate (v : pynum) (g : t) : t :=
  mk (cross_id g) (genotype g) (date_fertilized g) (dish_count g)
    (total_initial g) (total_surviving g) v (max_days g).

Definition set_max_days (v : Z) (g : t) : t :=
  mk (cross_id g) (genotype g) (date_fertilized g) (dish_count g)
    (total_initial g) (total_surviving g) (survival_rate g) v.
End Summary.

(** The dictionary [summary], in insertion order. *)
Definition summary_dict : Type := list (string * Summary.t).

(** [summary.get(k)] *)
Fixpoint dict_get (k : string) (summary : summary_dict) : option Summary.t :=
  match summary with
  | [] => None
  | (k', g) :: rest => if String.eqb k' k then Some g else dict_get k rest
  end.

(** [k in summary] *)
Definition dict_mem (k : string) (summary : summary_dict) : bool :=
  match dict_get k summary with
  | Some _ => true
  | None => false
  end.

(** [summary[k] = g] for a key that is not in [summary]. *)
Definition dict_add (k : string) (g : Summary.t) (summary : summary_dict)
  : summary_dict :=
  (summary ++ [(k, g)])%list.

(** An update in place of the entry of [k]. *)
Fixpoint dict_update (k : string) (f : Summary.t -> Summary.t)
  (summary : summary_dict) : summary_dict :=
  match summary with
  | [] => []
  | (k', g) :: rest =>
      if String.eqb k' k then (k', f g) :: rest
      else (k', g) :: dict_update k f rest
  end.

(** [f"{cross_id}_{genotype}_{dof}"] *)
Definition group_key_of (cross_id genotype dof : string) : string :=
  cross_id ++ "_" ++ genotype ++ "_" ++ dof.

Definition group_key (dish : Dish.t) : string :=
  group_key_of (get (Dish.cross_id dish) "unknown")
    (get (Dish.genotype dish) "unknown") (get (Dish.dof dish) "unknown").

(** The loop of lines 377-389: [final_count] and [latest_date]. *)
Fixpoint scan_checks (items : list (string * check)) (final_count : Z)
  (latest_date : string) : Z * string :=
  match items with
  | [] => (final_count, latest_date)
  | (check_time, c) :: rest =>
      match c with
      | Structured k =>
          let num_dead := get (Check.num_dead k) 0 in
          let final_count := final_count - num_dead in
          let check_date :=
            if contains ":"%char check_time then slice_to 8 check_time
            else check_time in
          let latest_date :=
            if str_gt check_date latest_date then check_date
            else latest_date in
          scan_checks rest final_count latest_date
      | _ => scan_checks rest final_count latest_date
      end
  end.

(** The body of the [try] of one dish, lines 344-397.  On a dish of the data
    model none of its operations raises. *)
Definition summary_dish (summary : summary_dict) (dish : Dish.t)
  : summary_dict :=
  let cross_id := get (Dish.cross_id dish) "unknown" in
  let genotype := get (Dish.genotype dish) "unknown" in
  let dof := get (Dish.dof dish) "unknown" in
  let initial_count := get (Dish.fish_count dish) 0 in
  let quality_checks := get (Dish.quality_checks dish) [] in
  match quality_checks with
  | [] => summary
  | _ :: _ =>
      let group_key := group_key_of cross_id genotype dof in
      let summary :=
        if negb (dict_mem group_key summary) then
          dict_add group_key
            (Summary.mk cross_id genotype dof 0 0 0 (PyInt 0) 0) summary
        else summary in
      let summary :=
        dict_update group_key
          (fun g => Summary.set_dish_count (Summary.dish_count g + 1) g)
          summary in
      let summary :=
        dict_update group_key
          (fun g =>
             Summary.set_total_initial (Summary.total_initial g + initial_count)
               g)
          summary in
      let (final_count, latest_date) :=
        scan_checks quality_checks initial_count "" in
      let summary :=
        dict_update group_key
          (fun g =>
             Summary.set_total_surviving
               (Summary.total_surviving g + Z.max 0 final_count) g)
          summary in
      if str_truthy latest_date then
        let days := _calculate_days_between dof latest_date in
        dict_update group_key
          (fun g => Summary.set_max_days (Z.max (Summary.max_days g) days) g)
          summary
      else summary
  end.

(** The dictionary after the loop over the dishes, lines 340-400. *)
Definition summary_groups (dishes_data : list Dish.t) : summary_dict :=
  fold_left summary_dish dishes_data [].

(** Lines 405-406 on one group. *)
Definition with_survival_rate (data : Summary.t) : result Summary.t :=
  if Summary.total_initial data >? 0 then
    q <- truediv (Summary.total_surviving data) (Summary.total_initial data) ;;
    Ok (Summary.set_survival_rate (PyFloat (q * 100)%Q) data)
  else Ok data.

(** The loop of lines 403-407. *)
Fixpoint summary_rows_of (items : summary_dict) : result (list Summary.t) :=
  match items with
  | [] => Ok []
  | (_, data) :: rest =>
      data' <- with_survival_rate data ;;
      rows <- summary_rows_of rest ;;
      Ok (data' :: rows)
  end.

(** [<] on the tuples [(cross_id, genotype)]. *)
Definition tuple_lt (a b : string * string) : bool :=
  match String.compare (fst a) (fst b) with
  | Lt => true
  | Eq => String.ltb (snd a) (snd b)
  | Gt => false
  end.

Definition summary_sort_key (x : Summary.t) : string * string :=
  (Summary.cross_id x, Summary.genotype x).

Definition _process_summary_data (dishes_data : list Dish.t)
  : result (list Summary.t) :=
  summary_rows <- summary_rows_of (summary_groups dishes_data) ;;
  Ok (sort summary_sort_key tuple_lt summary_rows).

(** ** [_collect_dishes_data] *)

(** What [json.load] returns on a file: a mapping, read as a dish whose
    absent keys are [None], or a JSON value of another kind. *)
Inductive parsed : Type :=
| Mapping (dish_data : Dish.t)
| NotMapping.

(** A file of the directory: its name and the outcome of [open] followed by
    [json.load]. *)
Definition json_file : Type := (string * result parsed)%type.

(** The dish directory: [glob("*.json")] raises, or lists its files. *)
Inductive directory : Type :=
| Unreadable (e : exn)
| Listing (json_files : list json_file).

Definition glob (dish_dir : directory) : result (list json_file) :=
  match dish_dir with
  | Unreadable e => Raise e
  | Listing json_files => Ok json_files
  end.

(** The loop of lines 101-114, with its inner [try]. *)
Fixpoint load_files (json_files : list json_file) : list Dish.t :=
  match json_files with
  | [] => []
  | (_, content) :: rest =>
      match content with
      | Ok (Mapping dish_data) =>
          match Dish.dish_id dish_data with
          | Some _ => dish_data :: load_files rest
          | None => load_files rest
          end
      | Ok NotMapping => load_files rest
      | Raise _ => load_files rest
      end
  end.

Definition _collect_dishes_data (dish_dir : directory) : list Dish.t :=
  try_except
    (json_files <- glob dish_dir ;;
     Ok (load_files json_files))
    (fun _ => []).

(** ** [_write_csv_report] *)

(** A CSV file: the header and the rows handed to [csv.DictWriter]. *)
Record csv_file (A : Type) : Type := mkcsv {
  fieldnames : list string;
  records : list A
}.

Arguments mkcsv {A} fieldnames records.
Arguments fieldnames {A} c.
Arguments records {A} c.

(** [row.keys()] *)
Class Keyed (A : Type) : Type := keys_of : A -> list string.

#[global] Instance Keyed_Row : Keyed Row.t := fun _ => Row.keys.
#[global] Instance Keyed_Summary : Keyed Summary.t := fun _ => Summary.keys.

(** [open(output_path, 'w')] *)
Definition open_w (writable : bool) : result unit :=
  if writable then Ok tt else Raise OSError.

(** The returned flag, and the file created at [output_path] if one was. *)
Definition _write_csv_report {A : Type} `{Keyed A} (writable : bool)
  (report_data : list A) : bool * option (csv_file A) :=
  match report_data with
  | [] => (false, None)
  | first :: _ =>
      let columns := keys_of first in
      try_except
        (_ <- open_w writable ;;
         Ok (true, Some (mkcsv columns report_data)))
        (fun _ => (false, None))
  end.

(** ** The public operations *)

(** What an export call finds: the directory behind
    [data_manager.dish_data_dir] ([None] when the import of lines 27-36 failed
    and the name [data_manager] is unbound), and whether [output_path] can be
    opened for writing. *)
Record world : Type := mkworld {
  data_manager : option directory;
  writable : bool
}.

Definition dish_data_dir (w : world) : result directory :=
  match data_manager w with
  | Some d => Ok d
  | None => Raise NameError
  end.

(** [try: body except Exception: return False] *)
Definition catch {A : Type} (body : result A) (handler : exn -> result A)
  : result A :=
  match body with
  | Ok a => Ok a
  | Raise e => handler e
  end.

Definition export_survivability_report (w : world)
  : result (bool * option (csv_file Row.t)) :=
  catch
    (dish_dir <- dish_data_dir w ;;
     let dishes_data := _collect_dishes_data dish_dir in
     match dishes_data with
     | [] => Ok (false, None)
     | _ :: _ =>
         let report_data := _process_survivability_data dishes_data in
         Ok (_write_csv_report (writable w) report_data)
     end)
    (fun _ => Ok (false, None)).

Definition export_survivability_summary (w : world)
  : result (bool * option (csv_file Summary.t)) :=
  catch
    (dish_dir <- dish_data_dir w ;;
     let dishes_data := _collect_dishes_data dish_dir in
     match dishes_data with
     | [] => Ok (false, None)
     | _ :: _ =>
         summary_data <- _process_summary_data dishes_data ;;
         Ok (_write_csv_report (writable w) summary_data)
     end)
    (fun _ => Ok (false, None)).

(** ** Quantities the properties speak of *)

(** The deaths the quality checks of a dish report: the sum of [num_dead]
    over its structured checks. *)
Fixpoint total_deaths (quality_checks : list (string * check)) : Z :=
  match quality_checks with
  | [] => 0
  | (_, Structured k) :: rest => get (Check.num_dead k) 0 + total_deaths rest
  | _ :: rest => total_deaths rest
  end.

(** The value of [survival_rate] when no exception is raised. *)
Definition rate_of (remaining initial_count : Z) : pynum :=
  if initial_count >? 0
  then PyFloat (inject_Z remaining / inject_Z initial_count * 100)%Q
  else PyInt 0.

(** The row of a check when no exception is raised. *)
Definition row_of (dish : Dish.t) (remaining : Z) (c : Datum.t) : Row.t :=
  let dof := get (Dish.dof dish) "unknown" in
  let initial_count := get (Dish.fish_count dish) 0 in
  let enclosure := get (Dish.enclosure dish) Enclosure.empty in
  {| Row.dish_id := get (Dish.dish_id dish) "unknown";
     Row.cross_id := get (Dish.cross_id dish) "unknown";
     Row.genotype := get (Dish.genotype dish) "unknown";
     Row.date_fertilized := dof;
     Row.date_created := get (Dish.date_created dish) "unknown";
     Row.initial_count := initial_count;
     Row.check_date := Datum.date c;
     Row.fish_deaths := Datum.num_dead c;
     Row.cumulative_deaths := initial_count - remaining;
     Row.remaining := remaining;
     Row.survival_rate := rate_of remaining initial_count;
     Row.days_since_fertilization :=
       _calculate_days_between dof (Datum.date c);
     Row.status := get (Dish.status dish) "unknown";
     Row.termination_date := or_empty (Dish.termination_date dish);
     Row.termination_reason := or_empty (Dish.termination_reason dish);
     Row.responsible := get (Dish.responsible dish) "unknown";
     Row.in_beaker := yes_no (get (Enclosure.in_beaker enclosure) false);
     Row.vol_water_total := get (Enclosure.vol_water_total enclosure) 0;
     Row.room := PyTuple [PyStr (get (Enclosure.room enclosure) "unknown")];
     Row.water_changed := yes_no (Datum.water_changed c);
     Row.vol_water_changed := Datum.vol_water_changed c |}.

(** The rows of a run of checks when no exception is raised. *)
Fixpoint rows_of (dish : Dish.t) (remaining : Z) (check_data : list Datum.t)
  : list Row.t :=
  match check_data with
  | [] => []
  | c :: rest =>
      let remaining := remaining - Datum.num_dead c in
      row_of dish remaining c :: rows_of dish remaining rest
  end.


(** The sorted [check_data] of a dish. *)
Definition sorted_check_data (dish : Dish.t) : list Datum.t :=
  sort Datum.date String.ltb
    (collect_check_data (get (Dish.quality_checks dish) [])).

(** The check a row was built from, read back from the row. *)
Definition datum_of_row (r : Row.t) : Datum.t :=
  Datum.mk (Row.check_date r) (Row.fish_deaths r)
    (String.eqb (Row.water_changed r) "Yes") (Row.vol_water_changed r).

(** An entry of [quality_checks] that is an object or a string. *)
Definition is_check (entry : string * check) : bool :=
  match snd entry with
  | Malformed => false
  | _ => true
  end.

Definition date_le (a b : string) : Prop := String.leb a b = true.

(** A dish that has quality checks: [not quality_checks] is false. *)
Definition contributes (dish : Dish.t) : bool :=
  match get (Dish.quality_checks dish) [] with
  | [] => false
  | _ :: _ => true
  end.

(** [final_count] and [latest_date] of a dish after the loop over its
    checks. *)
Definition final_count_of (dish : Dish.t) : Z :=
  fst (scan_checks (get (Dish.quality_checks dish) [])
         (get (Dish.fish_count dish) 0) "").

Definition latest_date_of (dish : Dish.t) : string :=
  snd (scan_checks (get (Dish.quality_checks dish) [])
         (get (Dish.fish_count dish) 0) "").

(** The entry a dish creates when its group key is new. *)
Definition new_group (dish : Dish.t) : Summary.t :=
  Summary.mk (get (Dish.cross_id dish) "unknown")
    (get (Dish.genotype dish) "unknown") (get (Dish.dof dish) "unknown")
    0 0 0 (PyInt 0) 0.

(** The four updates a dish makes to the entry of its group. *)
Definition absorb (dish : Dish.t) (g : Summary.t) : Summary.t :=
  let g := Summary.set_dish_count (Summary.dish_count g + 1) g in
  let g :=
    Summary.set_total_initial
      (Summary.total_initial g + get (Dish.fish_count dish) 0) g in
  let g :=
    Summary.set_total_surviving
      (Summary.total_surviving g + Z.max 0 (final_count_of dish)) g in
  if str_truthy (latest_date_of dish) then
    Summary.set_max_days
      (Z.max (Summary.max_days g)
         (_calculate_days_between (get (Dish.dof dish) "unknown")
            (latest_date_of dish))) g
  else g.

(** A group after lines 405-406 when no exception is raised. *)
Definition finalize (data : Summary.t) : Summary.t :=
  if Summary.total_initial data >? 0 then
    Summary.set_survival_rate
      (PyFloat (inject_Z (Summary.total_surviving data)
                / inject_Z (Summary.total_initial data) * 100)%Q) data
  else data.

(** The dishes that feed the group of key [k]. *)
Definition member (k : string) (dish : Dish.t) : bool :=
  contributes dish && String.eqb (group_key dish) k.

(** The entry of key [k] across one dish. *)
Definition group_step (k : string) (entry : option Summary.t) (dish : Dish.t)
  : option Summary.t :=
  if member k dish then Some (absorb dish (get entry (new_group dish)))
  else entry.

Fixpoint sum_over (f : Dish.t -> Z) (dishes : list Dish.t) : Z :=
  match dishes with
  | [] => 0
  | dish :: rest => f dish + sum_over f rest
  end.

Definition initial_of (dish : Dish.t) : Z := get (Dish.fish_count dish) 0.

Definition surviving_of (dish : Dish.t) : Z := Z.max 0 (final_count_of dish).

(** Days from fertilization to the latest date the summary loop tracked. *)
Definition days_of (dish : Dish.t) : Z :=
  _calculate_days_between (get (Dish.dof dish) "unknown")
    (latest_date_of dish).

Definition max_days_step (m : Z) (dish : Dish.t) : Z :=
  if str_truthy (latest_date_of dish) then Z.max m (days_of dish) else m.

Definition max_days_over (dishes : list Dish.t) : Z :=
  fold_left max_days_step dishes 0.

(** The entry of a group, from the dishes that feed it in load order. *)
Definition group_record (first : Dish.t) (members : list Dish.t)
  : Summary.t :=
  Summary.mk (get (Dish.cross_id first) "unknown")
    (get (Dish.genotype first) "unknown") (get (Dish.dof first) "unknown")
    (Z.of_nat (List.length members)) (sum_over initial_of members)
    (sum_over surviving_of members) (PyInt 0) (max_days_over members).

Definition group_of (members : list Dish.t) : option Summary.t :=
  match members with
  | [] => None
  | first :: _ => Some (group_record first members)
  end.

(** The canonical dates of the structured checks, in encounter order. *)
Fixpoint structured_dates (quality_checks : list (string * check))
  : list string :=
  match quality_checks with
  | [] => []
  | (check_time, Structured k) :: rest =>
      check_date_of check_time (Structured k) :: structured_dates rest
  | _ :: rest => structured_dates rest
  end.

(** What the loader keeps of a file: the dish of a file that parses as a
    mapping with a [dish_id] key. *)
Definition valid_dish (content : result parsed) : option Dish.t :=
  match content with
  | Ok (Mapping dish_data) =>
      match Dish.dish_id dish_data with
      | Some _ => Some dish_data
      | None => None
      end
  | _ => None
  end.

Fixpoint valid_dishes (json_files : list json_file) : list Dish.t :=
  match json_files with
  | [] => []
  | (_, content) :: rest =>
      match valid_dish content with
      | Some dish_data => dish_data :: valid_dishes rest
      | None => valid_dishes rest
      end
  end.

(** A summary rate between 0 and 100. *)
Definition percentage (rate : pynum) : Prop :=
  match rate with
  | PyInt z => 0 <= z <= 100
  | PyFloat q => (0 <= q /\ q <= 100)%Q
  end.



(** Nothing to export: every dish the loader returns lacks quality checks
    (an empty dish directory is the case of no dish at all). *)
Definition no_data (w : world) : Prop :=
  forall dish_dir,
    data_manager w = Some dish_dir ->
    forall dish, In dish (_collect_dishes_data dish_dir) ->
                 contributes dish = false.

(** ** Sample dishes *)

Definition structured (dead : Z) : check :=
  Structured (Check.mk (Some dead) None None).

Definition sample_dish (cross_id number dof : string) (fish_count : Z)
  (quality_checks : list (string * check)) : Dish.t :=
  {| Dish.dish_id := Some (cross_id ++ "_" ++ number);
     Dish.cross_id := Some cross_id;
     Dish.date_created := Some dof;
     Dish.dof := Some dof;
     Dish.genotype := Some "WT";
     Dish.fish_count := Some fish_count;
     Dish.status := Some "active";
     Dish.termination_date := None;
     Dish.termination_reason := None;
     Dish.responsible := Some "lab";
     Dish.enclosure :=
       Some (Enclosure.mk (Some false) (Some "2E.282") None);
     Dish.quality_checks := Some quality_checks |}.

(** The scenario of the specification: ten fish, no death on the first day,
    two deaths two days later. *)
Definition dish_X1 : Dish.t :=
  sample_dish "X1" "1" "20240101" 10
    [ ("20240101", structured 0); ("20240103", structured 2) ].

(** More deaths reported than fish in the dish. *)
Definition dish_overreported : Dish.t :=
  sample_dish "X2" "1" "20240101" 3 [ ("20240102", structured 5) ].

(** Two dishes of one cross: 10 fish with 2 deaths, 20 fish with 4. *)
Definition dish_X3_1 : Dish.t :=
  sample_dish "X3" "1" "20240101" 10 [ ("20240102", structured 2) ].

Definition dish_X3_2 : Dish.t :=
  sample_dish "X3" "2" "20240101" 20
    [ ("20240102", structured 1); ("20240105", structured 3) ].

(** A dish of the same cross that was never checked. *)
Definition dish_unchecked : Dish.t :=
  sample_dish "X3" "3" "20240101" 15 [].

(** A dish whose last check is a legacy string. *)
Definition dish_legacy_latest : Dish.t :=
  sample_dish "X4" "1" "20240101" 10
    [ ("20240101", structured 0); ("20240110", Legacy "fed, water changed") ].


Definition sample_directory : directory :=
  Listing [ ("broken.json", Raise JSONDecodeError);
            ("X1_1.json", Ok (Mapping dish_X1)) ].

(** An empty directory, and a directory whose only dish was never checked;
    the output path is writable in both. *)
Definition world_empty : world := mkworld (Some (Listing [])) true.

Definition world_unchecked : world :=
  mkworld (Some (Listing [ ("X3_3.json", Ok (Mapping dish_unchecked)) ])) true.

(** ** Further quantities *)

(** [sum(l)] on ints. *)
Fixpoint sum_Z (l : list Z) : Z :=
  match l with
  | [] => 0
  | z :: rest => z + sum_Z rest
  end.


(** A string of decimal digits. *)
Fixpoint all_digits (s : string) : bool :=
  match s with
  | EmptyString => true
  | String c s' =>
      match digit_of c with
      | Some _ => all_digits s'
      | None => false
      end
  end.

(** The documented form of a date, [YYYYMMDD]: eight decimal digits. *)
Definition is_date_string (s : string) : bool :=
  Nat.eqb (String.length s) 8 && all_digits s.

(** The number a string of digits denotes. *)
Fixpoint decimal (s : string) : Z :=
  match s with
  | EmptyString => 0
  | String c s' =>
      get (digit_of c) 0 * 10 ^ Z.of_nat (String.length s') + decimal s'
  end.

Definition leap_day (y : Z) : Z := if is_leap y then 1 else 0.

(** A date of the calendar. *)
Definition valid_date (d : date) : Prop :=
  1 <= year d /\ 1 <= month d <= 12
  /\ 1 <= day d <= days_in_month (year d) (month d).

(** The number [YYYYMMDD] of a date. *)
Definition date_number (d : date) : Z :=
  year d * 10000 + month d * 100 + day d.

(** The canonical date of an entry of [quality_checks]. *)
Definition entry_date (entry : string * check) : string :=
  check_date_of (fst entry) (snd entry).




(** A dish whose only quality check is neither an object nor a string. *)
Definition dish_malformed_check : Dish.t :=
  sample_dish "X6" "1" "20240101" 10 [ ("20240102", Malformed) ].

Definition world_malformed : world :=
  mkworld (Some (Listing [ ("X6_1.json", Ok (Mapping dish_malformed_check)) ]))
    true.


(** ** The callers of the exporter *)

(** The command line of [bin/export_survivability.py], as [argparse] hands
    it to [main]. *)
Module Args.
Record t : Type := mk {
  dishes_dir : option string;
  output : string;
  summary : bool;
  summary_output : string;
  both : bool
}.

Definition without_dishes_dir (args : t) : t :=
  mk None (output args) (summary args) (summary_output args) (both args).
End Args.

(** The two attributes of the [DataManager] singleton that the export path
    reads and writes. *)
Module Manager.
Record t : Type := mk {
  dish_data_dir : option string;
  is_initialized : bool
}.

(** [DataManager()], as the module creates it on import. *)
Definition fresh : t := mk None false.
End Manager.

(** What a run finds around it: whether the log file of [setup_logging] can
    be opened, the directory [config.dish_data_dir] gives after
    [load_config] ([None] when nothing is configured), the path
    [Path.cwd().parent / "dishes"], what [glob] finds under a path when the
    detailed and when the summary export run, and the paths that can be
    opened for writing. *)
Record site : Type := mksite {
  logging_opens : bool;
  config_dish_dir : option string;
  local_dish_dir : string;
  listing : string -> directory;
  listing_later : string -> directory;
  can_open : string -> bool
}.

(** [setup_logging()] *)
Definition setup_logging (s : site) : result unit :=
  if logging_opens s then Ok tt else Raise OSError.

(** [DataManager.initialize], lines 76-122 of [data_manager.py], on the two
    attributes: the directory is taken from the configuration, or is the
    local one, whatever it was before. *)
Definition initialize (s : site) (m : Manager.t) : Manager.t :=
  let dish_data_dir := config_dish_dir s in
  let dish_data_dir :=
    match dish_data_dir with
    | Some path => path
    | None => local_dish_dir s
    end in
  Manager.mk (Some dish_data_dir) true.

(** The world of an export call that writes to [output_path].  A manager
    without a directory makes the loader fail in its handler, as an unbound
    name makes the export fail in its own: no dish, no file. *)
Definition export_world (s : site) (look : string -> directory)
  (m : Manager.t) (output_path : string) : world :=
  mkworld (option_map look (Manager.dish_data_dir m)) (can_open s output_path).

(** The outcome of [main]: the exit code and the files created. *)
Definition run : Type :=
  (Z * option (csv_file Row.t) * option (csv_file Summary.t))%type.

(** [main], lines 81-141 of [bin/export_survivability.py]. *)
Definition main (s : site) (args : Args.t) (m : Manager.t) : run :=
  try_except
    (_ <- setup_logging s ;;
     let m :=
       match Args.dishes_dir args with
       | Some dir =>
           if str_truthy dir
           then Manager.mk (Some dir) (Manager.is_initialized m)
           else m
       | None => m
       end in
     let m :=
       if negb (Manager.is_initialized m) then initialize s m else m in
     let generate_detailed := negb (Args.summary args) || Args.both args in
     let generate_summary := Args.summary args || Args.both args in
     detailed <-
       (if generate_detailed then
          r <- export_survivability_report
                 (export_world s (listing s) m (Args.output args)) ;;
          Ok (Some r)
        else Ok None) ;;
     match detailed with
     | Some (false, file) => Ok (1, file, None)
     | _ =>
         let detailed_file :=
           match detailed with
           | Some (_, file) => file
           | None => None
           end in
         if generate_summary then
           r <- export_survivability_summary
                  (export_world s (listing_later s) m
                     (Args.summary_output args)) ;;
           Ok (if fst r then 0 else 1, detailed_file, snd r)
         else Ok (0, detailed_file, None)
     end)
    (fun _ => (1, None, None)).

(** What [ExportDialog.export_data] ends with: a warning about a missing
    path, the message after the exports (success or errors) with the files
    created, or the message of its exception handler. *)
Inductive dialog_result : Type :=
| PathMissing
| Exported (success : bool) (detailed : option (csv_file Row.t))
    (summary : option (csv_file Summary.t))
| Crashed.

(** [ExportDialog.export_data], lines 153-205 of [export_dialog.py]; the
    three booleans are the states of the radio buttons and the two strings
    the texts of the path fields. *)
Definition export_data (s : site) (m : Manager.t)
  (export_detail export_summary export_both : bool)
  (detailed_path summary_path : string) : dialog_result :=
  try_except
    (let export_detailed := export_detail || export_both in
     let export_summary := export_summary || export_both in
     if export_detailed && negb (str_truthy detailed_path) then Ok PathMissing
     else if export_summary && negb (str_truthy summary_path)
     then Ok PathMissing
     else
       detailed <-
         (if export_detailed then
            export_survivability_report
              (export_world s (listing s) m detailed_path)
          else Ok (true, None)) ;;
       summary <-
         (if export_summary then
            export_survivability_summary
              (export_world s (listing_later s) m summary_path)
          else Ok (true, None)) ;;
       Ok (Exported (fst detailed && fst summary) (snd detailed)
             (snd summary)))
    (fun _ => Crashed).

(** A site whose configured directory holds the dish of the scenario, while
    the directory named on the command line holds another dish. *)
Definition sample_site : site :=
  mksite true (Some "/lab/dishes") "/home/dishes"
    (fun path =>
       if String.eqb path "/lab/dishes" then sample_directory
       else Listing [ ("X2_1.json", Ok (Mapping dish_overreported)) ])
    (fun path =>
       if String.eqb path "/lab/dishes" then sample_directory
       else Listing [ ("X2_1.json", Ok (Mapping dish_overreported)) ])
    (fun _ => true).

Definition sample_args : Args.t :=
  Args.mk (Some "/tmp/other") "survivability_report.csv" false
    "survivability_summary.csv" true.

(** A site whose only dish has a check that is neither an object nor a
    string: the detailed export fails there and the summary export
    succeeds. *)
Definition malformed_site : site :=
  mksite true (Some "/lab/dishes") "/home/dishes"
    (fun _ => Listing [ ("X6_1.json", Ok (Mapping dish_malformed_check)) ])
    (fun _ => Listing [ ("X6_1.json", Ok (Mapping dish_malformed_check)) ])
    (fun _ => true).

(** ** [DataManager.load_fish_dishes] *)

(** The dictionary [dishes], keyed by [dish_id], in insertion order. *)
Definition dish_dict : Type := list (string * Dish.t).

(** [dishes[k] = v] *)
Fixpoint dish_dict_set (k : string) (v : Dish.t) (dishes : dish_dict)
  : dish_dict :=
  match dishes with
  | [] => [(k, v)]
  | (k', v') :: rest =>
      if String.eqb k' k then (k', v) :: rest
      else (k', v') :: dish_dict_set k v rest
  end.

(** [dishes.get(k)] *)
Fixpoint dish_dict_get (k : string) (dishes : dish_dict) : option Dish.t :=
  match dishes with
  | [] => None
  | (k', v) :: rest =>
      if String.eqb k' k then Some v else dish_dict_get k rest
  end.

(** The loop of lines 400-409 of [data_manager.py], with its inner [try]: a
    file that does not open or parse, or whose value has no [get], is
    passed over; so is a mapping whose [dish_id] is absent or empty. *)
Fixpoint load_dish_files (dish_files : list json_file) (dishes : dish_dict)
  : dish_dict :=
  match dish_files with
  | [] => dishes
  | (_, content) :: rest =>
      match content with
      | Ok (Mapping dish_data) =>
          let dish_id := get (Dish.dish_id dish_data) "" in
          if str_truthy dish_id
          then load_dish_files rest (dish_dict_set dish_id dish_data dishes)
          else load_dish_files rest dishes
      | Ok NotMapping => load_dish_files rest dishes
      | Raise _ => load_dish_files rest dishes
      end
  end.

(** [load_fish_dishes], lines 381-415: the dictionary under the key
    ['fish_dishes'].  [dir_exists] is [self.dish_data_dir.exists()]. *)
Definition load_fish_dishes (dir_exists : bool) (dish_dir : directory)
  : dish_dict :=
  try_except
    (if negb dir_exists then Ok []
     else
       dish_files <- glob dish_dir ;;
       Ok (load_dish_files dish_files []))
    (fun _ => []).

(** Two files of one dish id, and a file whose [dish_id] is empty. *)
Definition directory_with_duplicates : directory :=
  Listing
    [ ("X3_1_20240101.json", Ok (Mapping dish_X3_1));
      ("noid.json",
       Ok (Mapping (Dish.mk (Some "") None None None None None None None None
                      None None None)));
      ("X3_1_20240102.json",
       Ok (Mapping (sample_dish "X3" "1" "20240102" 12
                      [ ("20240103", structured 1) ]))) ].

(** The dish with another [quality_checks]. *)
Definition with_quality_checks (quality_checks : list (string * check))
  (dish : Dish.t) : Dish.t :=
  Dish.mk (Dish.dish_id dish) (Dish.cross_id dish) (Dish.date_created dish)
    (Dish.dof dish) (Dish.genotype dish) (Dish.fish_count dish)
    (Dish.status dish) (Dish.termination_date dish)
    (Dish.termination_reason dish) (Dish.responsible dish)
    (Dish.enclosure dish) (Some quality_checks).

(** The figures of a summary row, its labels left aside. *)
Definition figures (row : Summary.t) : Z * Z * Z * pynum * Z :=
  (Summary.dish_count row, Summary.total_initial row,
   Summary.total_surviving row, Summary.survival_rate row,
   Summary.max_days row).

(** * Properties *)

(** ** The order on strings *)

Lemma ascii_compare_refl (a : ascii) : Ascii.compare a a = Eq.
Proof. unfold Ascii.compare. apply N.compare_refl. Qed.

Lemma string_compare_refl (s : string) : String.compare s s = Eq.
Proof.
  induction s as [|a s IH]; simpl; [reflexivity|].
  now rewrite ascii_compare_refl.
Qed.

Lemma ascii_compare_lt_trans (a b c : ascii) :
  Ascii.compare a b = Lt -> Ascii.compare b c = Lt -> Ascii.compare a c = Lt.
Proof.
  unfold Ascii.compare. rewrite !N.compare_lt_iff. lia.
Qed.

Lemma string_compare_lt_trans (s1 : string) :
  forall s2 s3,
    String.compare s1 s2 = Lt -> String.compare s2 s3 = Lt ->
    String.compare s1 s3 = Lt.
Proof.
  induction s1 as [|a s1 IH]; intros [|b s2] [|c s3]; simpl;
    try discriminate; try reflexivity.
  destruct (Ascii.compare a b) eqn:Hab; try discriminate.
  - apply Ascii.compare_eq_iff in Hab. subst b.
    destruct (Ascii.compare a c) eqn:Hac; try discriminate; auto.
    apply IH.
  - destruct (Ascii.compare b c) eqn:Hbc; try discriminate.
    + apply Ascii.compare_eq_iff in Hbc. subst c. now rewrite Hab.
    + now rewrite (ascii_compare_lt_trans _ _ _ Hab Hbc).
Qed.


Lemma string_ltb_leb (a b : string) :
  String.ltb a b = negb (String.leb b a).
Proof.
  unfold String.ltb, String.leb. rewrite (String.compare_antisym b a).
  now destruct (String.compare a b).
Qed.

Lemma string_leb_refl (s : string) : String.leb s s = true.
Proof. unfold String.leb. now rewrite string_compare_refl. Qed.

Lemma string_leb_trans (a b c : string) :
  String.leb a b = true -> String.leb b c = true -> String.leb a c = true.
Proof.
  unfold String.leb.
  destruct (String.compare a b) eqn:Hab; try discriminate; intros _;
    destruct (String.compare b c) eqn:Hbc; try discriminate; intros _.
  - apply String.compare_eq_iff in Hab. subst b. now rewrite Hbc.
  - apply String.compare_eq_iff in Hab. subst b. now rewrite Hbc.
  - apply String.compare_eq_iff in Hbc. subst c. now rewrite Hab.
  - now rewrite (string_compare_lt_trans _ _ _ Hab Hbc).
Qed.

(** ** The stable sort *)

Section StableSortFacts.
Context {A K : Type} (key : A -> K) (lt : K -> K -> bool).

Lemma insert_perm (x : A) (l : list A) :
  Permutation (insert key lt x l) (x :: l).
Proof.
  induction l as [|y l IH]; simpl; [reflexivity|].
  destruct (lt (key y) (key x)); [|reflexivity].
  rewrite IH. apply perm_swap.
Qed.

Lemma sort_perm (l : list A) : Permutation (sort key lt l) l.
Proof.
  induction l as [|x l IH]; simpl; [reflexivity|].
  rewrite insert_perm. now constructor.
Qed.



Hypothesis lt_asym :
  forall a b, lt a b = true -> lt b a = false.

Lemma insert_HdRel (y x : A) (l : list A) :
  not_after key lt y x -> HdRel (not_after key lt) y l ->
  HdRel (not_after key lt) y (insert key lt x l).
Proof.
  intros Hyx Hl. destruct l as [|z l]; simpl.
  - now constructor.
  - destruct (lt (key z) (key x)); constructor; auto.
    now inversion Hl.
Qed.

Lemma insert_Sorted (x : A) (l : list A) :
  Sorted (not_after key lt) l -> Sorted (not_after key lt) (insert key lt x l).
Proof.
  induction 1 as [|y l Hs IH Hhd]; simpl.
  - repeat constructor.
  - destruct (lt (key y) (key x)) eqn:Hlt.
    + constructor; [exact IH|].
      apply insert_HdRel; [|exact Hhd].
      unfold not_after. now apply lt_asym.
    + constructor; [now constructor|]. now constructor.
Qed.

Lemma sort_Sorted (l : list A) : Sorted (not_after key lt) (sort key lt l).
Proof.
  induction l as [|x l IH]; simpl; [constructor|].
  now apply insert_Sorted.
Qed.
End StableSortFacts.

Lemma string_ltb_asym (a b : string) :
  String.ltb a b = true -> String.ltb b a = false.
Proof.
  unfold String.ltb. rewrite (String.compare_antisym b a).
  now destruct (String.compare a b).
Qed.




(** ** The detailed report *)

Lemma truediv_ok (a b : Z) :
  b <> 0 -> truediv a b = Ok (inject_Z a / inject_Z b)%Q.
Proof.
  intros Hb. unfold truediv.
  destruct (Z.eqb_spec b 0); [contradiction|reflexivity].
Qed.

Lemma survival_rate_of_ok (remaining initial_count : Z) :
  survival_rate_of remaining initial_count
  = Ok (rate_of remaining initial_count).
Proof.
  unfold survival_rate_of, rate_of.
  destruct (initial_count >? 0) eqn:Hpos; [|reflexivity].
  rewrite truediv_ok; [reflexivity|].
  apply Z.gtb_lt in Hpos. lia.
Qed.

Lemma make_row_ok (dish : Dish.t) (remaining : Z) (c : Datum.t) :
  make_row dish remaining c = Ok (row_of dish remaining c).
Proof.
  unfold make_row. now rewrite survival_rate_of_ok.
Qed.

Lemma emit_rows_ok (dish : Dish.t) (check_data : list Datum.t) :
  forall remaining,
    emit_rows dish remaining check_data
    = (rows_of dish remaining check_data, None).
Proof.
  induction check_data as [|c rest IH]; intros remaining; simpl;
    [reflexivity|].
  now rewrite make_row_ok, IH.
Qed.

Lemma dish_body_ok (dish : Dish.t) :
  dish_body dish
  = (match get (Dish.quality_checks dish) [] with
     | [] => []
     | _ :: _ =>
         rows_of dish (get (Dish.fish_count dish) 0) (sorted_check_data dish)
     end, None).
Proof.
  unfold dish_body, sorted_check_data.
  destruct (get (Dish.quality_checks dish) []); [reflexivity|].
  apply emit_rows_ok.
Qed.

Lemma dish_rows_eq (dish : Dish.t) :
  dish_rows dish
  = rows_of dish (get (Dish.fish_count dish) 0) (sorted_check_data dish).
Proof.
  unfold dish_rows. rewrite dish_body_ok. unfold sorted_check_data.
  now destruct (get (Dish.quality_checks dish) []).
Qed.

Lemma process_fold (dishes : list Dish.t) :
  forall report_rows,
    fold_left (fun report_rows dish => (report_rows ++ dish_rows dish)%list)
      dishes report_rows
    = (report_rows ++ flat_map dish_rows dishes)%list.
Proof.
  induction dishes as [|d dishes IH]; intros report_rows; simpl.
  - now rewrite app_nil_r.
  - now rewrite IH, app_assoc.
Qed.

Lemma process_flat_map (dishes : list Dish.t) :
  _process_survivability_data dishes = flat_map dish_rows dishes.
Proof. unfold _process_survivability_data. now rewrite process_fold. Qed.

Lemma process_app (before after : list Dish.t) :
  _process_survivability_data (before ++ after)
  = (_process_survivability_data before
     ++ _process_survivability_data after)%list.
Proof. rewrite !process_flat_map. apply flat_map_app. Qed.

Lemma process_cons (dish : Dish.t) (after : list Dish.t) :
  _process_survivability_data (dish :: after)
  = (dish_rows dish ++ _process_survivability_data after)%list.
Proof. now rewrite !process_flat_map. Qed.




Lemma In_rows_of (dish : Dish.t) (check_data : list Datum.t) :
  forall remaining row,
    In row (rows_of dish remaining check_data) ->
    exists remaining' c, In c check_data /\ row = row_of dish remaining' c.
Proof.
  induction check_data as [|c rest IH]; intros remaining row Hin;
    [contradiction|].
  destruct Hin as [<-|Hin].
  - exists (remaining - Datum.num_dead c), c. split; [now left|reflexivity].
  - destruct (IH _ _ Hin) as (remaining' & c' & Hc' & ->).
    exists remaining', c'. split; [now right|reflexivity].
Qed.

Lemma In_process (dishes : list Dish.t) (row : Row.t) :
  In row (_process_survivability_data dishes) ->
  exists dish remaining c,
    In dish dishes /\ In c (sorted_check_data dish)
    /\ row = row_of dish remaining c.
Proof.
  rewrite process_flat_map, in_flat_map. intros (dish & Hdish & Hrow).
  rewrite dish_rows_eq in Hrow.
  destruct (In_rows_of _ _ _ _ Hrow) as (remaining & c & Hc & ->).
  now exists dish, remaining, c.
Qed.



(** ** The order of the rows of a dish *)

Lemma datum_of_row_of (dish : Dish.t) (remaining : Z) (c : Datum.t) :
  datum_of_row (row_of dish remaining c) = c.
Proof.
  destruct c as [date num_dead water_changed vol]. unfold datum_of_row. simpl.
  now destruct water_changed.
Qed.

Lemma map_datum_rows_of (dish : Dish.t) (check_data : list Datum.t) :
  forall remaining,
    map datum_of_row (rows_of dish remaining check_data) = check_data.
Proof.
  induction check_data as [|c rest IH]; intros remaining; simpl;
    [reflexivity|].
  now rewrite datum_of_row_of, IH.
Qed.


Lemma StronglySorted_map {A B : Type} (f : A -> B) (R : B -> B -> Prop)
  (l : list A) :
  StronglySorted R (map f l) ->
  StronglySorted (fun a1 a2 => R (f a1) (f a2)) l.
Proof.
  induction l as [|a l IH]; simpl; intros Hs; [constructor|].
  inversion Hs as [|? ? Hl Hall]; subst. constructor; [now apply IH|].
  rewrite Forall_map in Hall. exact Hall.
Qed.

Lemma check_data_sorted (l : list Datum.t) :
  StronglySorted (fun a b => date_le (Datum.date a) (Datum.date b))
    (sort Datum.date String.ltb l).
Proof.
  apply Sorted_StronglySorted.
  - intros a b c. unfold date_le. apply string_leb_trans.
  - pose proof (sort_Sorted Datum.date String.ltb string_ltb_asym l) as Hs.
    eapply Sorted_ind with (P := Sorted _); [constructor| |exact Hs].
    intros a l' _ IH Hhd. constructor; [exact IH|].
    destruct Hhd as [|b l'' Hab]; constructor.
    unfold not_after in Hab. unfold date_le.
    rewrite string_ltb_leb in Hab. now apply negb_false_iff in Hab.
Qed.


Lemma collect_dates (quality_checks : list (string * check)) :
  map Datum.date (collect_check_data quality_checks)
  = map (fun entry => check_date_of (fst entry) (snd entry))
      (filter is_check quality_checks).
Proof.
  induction quality_checks as [|[check_time c] rest IH]; [reflexivity|].
  destruct c; simpl; now rewrite <- ?IH.
Qed.


(** ** The dictionary of groups *)

Lemma dict_get_update (k k' : string) (f : Summary.t -> Summary.t)
  (summary : summary_dict) :
  dict_get k (dict_update k' f summary)
  = if String.eqb k' k then option_map f (dict_get k summary)
    else dict_get k summary.
Proof.
  induction summary as [|[k0 g] rest IH]; simpl.
  - now destruct (String.eqb k' k).
  - destruct (String.eqb k0 k') eqn:H0; simpl.
    + apply String.eqb_eq in H0. subst k0.
      destruct (String.eqb k' k); reflexivity.
    + destruct (String.eqb k0 k) eqn:H1; [|exact IH].
      apply String.eqb_eq in H1. subst k0.
      rewrite String.eqb_sym in H0. now rewrite H0.
Qed.

Lemma dict_get_add (k k' : string) (g : Summary.t) (summary : summary_dict) :
  dict_get k (dict_add k' g summary)
  = match dict_get k summary with
    | Some x => Some x
    | None => if String.eqb k' k then Some g else None
    end.
Proof.
  unfold dict_add. induction summary as [|[k0 g0] rest IH]; simpl.
  - reflexivity.
  - destruct (String.eqb k0 k); [reflexivity|exact IH].
Qed.

Lemma dict_update_compose (k : string) (f h : Summary.t -> Summary.t)
  (summary : summary_dict) :
  dict_update k h (dict_update k f summary)
  = dict_update k (fun g => h (f g)) summary.
Proof.
  induction summary as [|[k0 g] rest IH]; simpl; [reflexivity|].
  destruct (String.eqb k0 k) eqn:H0; simpl; rewrite H0; [reflexivity|].
  now rewrite IH.
Qed.

Lemma dict_update_ext (k : string) (f h : Summary.t -> Summary.t)
  (summary : summary_dict) :
  (forall g, f g = h g) ->
  dict_update k f summary = dict_update k h summary.
Proof.
  intros Hfh. induction summary as [|[k0 g] rest IH]; simpl; [reflexivity|].
  destruct (String.eqb k0 k); [now rewrite Hfh|now rewrite IH].
Qed.

Lemma dict_update_add (k : string) (f : Summary.t -> Summary.t)
  (g : Summary.t) (summary : summary_dict) :
  dict_get k summary = None ->
  dict_update k f (dict_add k g summary) = dict_add k (f g) summary.
Proof.
  unfold dict_add. induction summary as [|[k0 g0] rest IH]; simpl.
  - intros _. now rewrite String.eqb_refl.
  - destruct (String.eqb k0 k); [discriminate|].
    intros Hnone. now rewrite IH.
Qed.

Lemma dict_update_keys (k : string) (f : Summary.t -> Summary.t)
  (summary : summary_dict) :
  map fst (dict_update k f summary) = map fst summary.
Proof.
  induction summary as [|[k0 g] rest IH]; simpl; [reflexivity|].
  destruct (String.eqb k0 k); simpl; [reflexivity|now rewrite IH].
Qed.

Lemma dict_get_None (k : string) (summary : summary_dict) :
  dict_get k summary = None <-> ~ In k (map fst summary).
Proof.
  induction summary as [|[k0 g] rest IH]; simpl.
  - split; [intros _ []|reflexivity].
  - destruct (String.eqb k0 k) eqn:H0.
    + apply String.eqb_eq in H0. split; [discriminate|]. intros H. now destruct H; left.
    + apply String.eqb_neq in H0. rewrite IH. tauto.
Qed.

Lemma dict_get_In (k : string) (g : Summary.t) (summary : summary_dict) :
  NoDup (map fst summary) -> In (k, g) summary -> dict_get k summary = Some g.
Proof.
  induction summary as [|[k0 g0] rest IH]; simpl; [intros _ []|].
  intros Hnd [Heq|Hin].
  - injection Heq as -> ->. now rewrite String.eqb_refl.
  - inversion Hnd as [|? ? Hnotin Hnd']; subst.
    destruct (String.eqb k0 k) eqn:H0.
    + apply String.eqb_eq in H0. subst k0. exfalso. apply Hnotin.
      apply (in_map fst) in Hin. exact Hin.
    + now apply IH.
Qed.

Lemma dict_In_get (k : string) (g : Summary.t) (summary : summary_dict) :
  dict_get k summary = Some g -> In (k, g) summary.
Proof.
  induction summary as [|[k0 g0] rest IH]; simpl; [discriminate|].
  destruct (String.eqb k0 k) eqn:H0.
  - apply String.eqb_eq in H0. subst k0. intros [= ->]. now left.
  - intros H. right. now apply IH.
Qed.

(** One dish either leaves [summary] alone, or updates the entry of its
    group, or appends a new entry. *)
Lemma summary_dish_eq (summary : summary_dict) (dish : Dish.t) :
  summary_dish summary dish
  = if contributes dish then
      if dict_mem (group_key dish) summary
      then dict_update (group_key dish) (absorb dish) summary
      else dict_add (group_key dish) (absorb dish (new_group dish)) summary
    else summary.
Proof.
  unfold summary_dish, contributes, absorb, final_count_of, latest_date_of.
  destruct (get (Dish.quality_checks dish) []) as [|entry rest] eqn:Hqc;
    [reflexivity|].
  fold (group_key dish).
  destruct (scan_checks (entry :: rest) (get (Dish.fish_count dish) 0) "")
    as [final_count latest_date] eqn:Hscan.
  cbn [fst snd].
  unfold dict_mem.
  destruct (dict_get (group_key dish) summary) as [g|] eqn:Hget; cbn [negb].
  - destruct (str_truthy latest_date);
      rewrite !dict_update_compose; apply dict_update_ext; reflexivity.
  - fold (new_group dish).
    destruct (str_truthy latest_date);
      rewrite !dict_update_add by exact Hget; reflexivity.
Qed.

Ltac summary_eq :=
  unfold Summary.set_max_days, Summary.set_total_surviving,
    Summary.set_total_initial, Summary.set_dish_count,
    Summary.set_survival_rate;
  cbn [Summary.cross_id Summary.genotype Summary.date_fertilized
       Summary.dish_count Summary.total_initial Summary.total_surviving
       Summary.survival_rate Summary.max_days];
  try apply (f_equal (@Some Summary.t)); f_equal; try lia.

Lemma get_summary_dish (k : string) (summary : summary_dict) (dish : Dish.t) :
  dict_get k (summary_dish summary dish)
  = group_step k (dict_get k summary) dish.
Proof.
  rewrite summary_dish_eq. unfold group_step, member, dict_mem.
  destruct (contributes dish); [|reflexivity]. cbn [andb].
  destruct (dict_get (group_key dish) summary) as [g|] eqn:Hget.
  - rewrite dict_get_update.
    destruct (String.eqb (group_key dish) k) eqn:Hk; [|reflexivity].
    apply String.eqb_eq in Hk. subst k. now rewrite Hget.
  - rewrite dict_get_add.
    destruct (String.eqb (group_key dish) k) eqn:Hk.
    + apply String.eqb_eq in Hk. subst k. now rewrite Hget.
    + now destruct (dict_get k summary).
Qed.

Lemma get_fold_summary (k : string) (dishes : list Dish.t) :
  forall summary,
    dict_get k (fold_left summary_dish dishes summary)
    = fold_left (group_step k) dishes (dict_get k summary).
Proof.
  induction dishes as [|d dishes IH]; intros summary; simpl; [reflexivity|].
  now rewrite IH, get_summary_dish.
Qed.

Lemma sum_over_app (f : Dish.t -> Z) (l1 l2 : list Dish.t) :
  sum_over f (l1 ++ l2) = sum_over f l1 + sum_over f l2.
Proof. induction l1 as [|d l1 IH]; simpl; [reflexivity|]. rewrite IH. lia. Qed.

Lemma group_of_snoc (members : list Dish.t) (dish : Dish.t) :
  group_of (members ++ [dish])
  = Some (absorb dish (get (group_of members) (new_group dish))).
Proof.
  destruct members as [|first rest].
  - simpl. unfold absorb, new_group, group_record, max_days_over,
      max_days_step, days_of, surviving_of, initial_of. simpl.
    destruct (str_truthy (latest_date_of dish)); summary_eq.
  - assert (H1 : group_of (first :: rest)
                 = Some (group_record first (first :: rest))) by reflexivity.
    assert (H2 : group_of ((first :: rest) ++ [dish])
                 = Some (group_record first ((first :: rest) ++ [dish])))
      by reflexivity.
    rewrite H1, H2. clear H1 H2. generalize (first :: rest). intros ms.
    cbn [get]. unfold absorb, group_record, max_days_over.
    rewrite fold_left_app, !sum_over_app, length_app.
    cbn [fold_left sum_over List.length].
    unfold max_days_step at 1, days_of, surviving_of at 2, initial_of at 2.
    destruct (str_truthy (latest_date_of dish)); summary_eq.
Qed.

Lemma fold_group_step (k : string) (dishes : list Dish.t) :
  fold_left (group_step k) dishes None = group_of (filter (member k) dishes).
Proof.
  induction dishes as [|d dishes IH] using rev_ind; [reflexivity|].
  rewrite fold_left_app, filter_app, IH. cbn [fold_left filter].
  unfold group_step. destruct (member k d).
  - now rewrite group_of_snoc.
  - now rewrite app_nil_r.
Qed.

(** The entry of every key after the loop over the dishes. *)
Lemma summary_groups_get (k : string) (dishes : list Dish.t) :
  dict_get k (summary_groups dishes) = group_of (filter (member k) dishes).
Proof.
  unfold summary_groups. rewrite get_fold_summary. apply fold_group_step.
Qed.

Lemma summary_dish_NoDup (summary : summary_dict) (dish : Dish.t) :
  NoDup (map fst summary) -> NoDup (map fst (summary_dish summary dish)).
Proof.
  intros Hnd. rewrite summary_dish_eq.
  destruct (contributes dish); [|exact Hnd].
  unfold dict_mem.
  destruct (dict_get (group_key dish) summary) eqn:Hget.
  - now rewrite dict_update_keys.
  - unfold dict_add. rewrite map_app. cbn [map fst].
    apply dict_get_None in Hget.
    apply NoDup_app; [exact Hnd|repeat constructor; intros []|].
    intros x Hx [<-|[]]. contradiction.
Qed.

Lemma summary_groups_NoDup (dishes : list Dish.t) :
  NoDup (map fst (summary_groups dishes)).
Proof.
  unfold summary_groups.
  assert (H : forall summary, NoDup (map fst summary) ->
                NoDup (map fst (fold_left summary_dish dishes summary))).
  { induction dishes as [|d dishes IH]; intros summary Hnd; simpl;
      [exact Hnd|].
    apply IH. now apply summary_dish_NoDup. }
  apply H. constructor.
Qed.

Lemma with_survival_rate_ok (data : Summary.t) :
  with_survival_rate data = Ok (finalize data).
Proof.
  unfold with_survival_rate, finalize.
  destruct (Summary.total_initial data >? 0) eqn:Hpos; [|reflexivity].
  rewrite truediv_ok; [reflexivity|]. apply Z.gtb_lt in Hpos. lia.
Qed.

Lemma summary_rows_of_ok (items : summary_dict) :
  summary_rows_of items = Ok (map (fun item => finalize (snd item)) items).
Proof.
  induction items as [|[k data] rest IH]; simpl; [reflexivity|].
  now rewrite with_survival_rate_ok, IH.
Qed.

Lemma process_summary_ok (dishes : list Dish.t) :
  _process_summary_data dishes
  = Ok (sort summary_sort_key tuple_lt
          (map (fun item => finalize (snd item)) (summary_groups dishes))).
Proof.
  unfold _process_summary_data. now rewrite summary_rows_of_ok.
Qed.

(** The rows of the summary are the finished entries of the groups. *)
Lemma In_summary_rows (dishes : list Dish.t) (rows : list Summary.t)
  (row : Summary.t) :
  _process_summary_data dishes = Ok rows ->
  (In row rows <->
   exists k g, dict_get k (summary_groups dishes) = Some g
               /\ row = finalize g).
Proof.
  rewrite process_summary_ok. intros [= <-]. split.
  - intros Hin.
    apply (Permutation_in _ (sort_perm summary_sort_key tuple_lt _)) in Hin.
    apply in_map_iff in Hin. destruct Hin as ([k g] & <- & Hin).
    exists k, g. split; [|reflexivity].
    apply dict_get_In; [apply summary_groups_NoDup|exact Hin].
  - intros (k & g & Hget & ->).
    apply (Permutation_in _
             (Permutation_sym (sort_perm summary_sort_key tuple_lt _))).
    apply in_map_iff. exists (k, g). split; [reflexivity|].
    now apply dict_In_get.
Qed.

(** ** Dishes without quality checks *)

Lemma summary_groups_app (before after : list Dish.t) :
  summary_groups (before ++ after)
  = fold_left summary_dish after (summary_groups before).
Proof. unfold summary_groups. apply fold_left_app. Qed.

Lemma summary_dish_unchecked (summary : summary_dict) (dish : Dish.t) :
  get (Dish.quality_checks dish) [] = [] ->
  summary_dish summary dish = summary.
Proof. intros Hqc. unfold summary_dish. now rewrite Hqc. Qed.

Lemma dish_rows_unchecked (dish : Dish.t) :
  get (Dish.quality_checks dish) [] = [] -> dish_rows dish = [].
Proof. intros Hqc. unfold dish_rows, dish_body. now rewrite Hqc. Qed.

(** C7.  A dish whose [quality_checks] is empty adds no row to the detailed
    report, and the dictionary of groups and the summary rows are the same
    with and without it, whatever dishes come before and after it: it adds
    nothing to [dish_count], [total_initial] or [total_surviving] of any
    group. *)
Theorem unchecked_dish_skipped (before after : list Dish.t) (dish : Dish.t) :
  get (Dish.quality_checks dish) [] = [] ->
  dish_rows dish = []
  /\ _process_survivability_data (before ++ dish :: after)
     = _process_survivability_data (before ++ after)
  /\ summary_groups (before ++ dish :: after)
     = summary_groups (before ++ after)
  /\ _process_summary_data (before ++ dish :: after)
     = _process_summary_data (before ++ after).
Proof.
  intros Hqc.
  pose proof (dish_rows_unchecked dish Hqc) as Hrows.
  assert (Hgroups : summary_groups (before ++ dish :: after)
                    = summary_groups (before ++ after)).
  { rewrite !summary_groups_app. cbn [fold_left].
    now rewrite summary_dish_unchecked. }
  repeat split.
  - exact Hrows.
  - now rewrite !process_app, process_cons, Hrows.
  - exact Hgroups.
  - unfold _process_summary_data. now rewrite Hgroups.
Qed.

Lemma unchecked_dish_skipped_witness :
  get (Dish.quality_checks dish_unchecked) [] = []
  /\ _process_survivability_data [dish_X3_1; dish_unchecked; dish_X3_2]
     = _process_survivability_data [dish_X3_1; dish_X3_2]
  /\ _process_summary_data [dish_X3_1; dish_unchecked; dish_X3_2]
     = _process_summary_data [dish_X3_1; dish_X3_2].
Proof.
  split; [reflexivity|].
  destruct (unchecked_dish_skipped [dish_X3_1] [dish_X3_2] dish_unchecked
              eq_refl) as (_ & Hdetail & _ & Hsummary).
  split; [exact Hdetail|exact Hsummary].
Defined.

(** ** The summary of one group *)

Lemma scan_checks_fst (quality_checks : list (string * check)) :
  forall final_count latest_date,
    fst (scan_checks quality_checks final_count latest_date)
    = final_count - total_deaths quality_checks.
Proof.
  induction quality_checks as [|[check_time c] rest IH];
    intros final_count latest_date; simpl; [lia|].
  destruct c; rewrite IH; lia.
Qed.

Lemma final_count_of_eq (dish : Dish.t) :
  final_count_of dish
  = get (Dish.fish_count dish) 0
    - total_deaths (get (Dish.quality_checks dish) []).
Proof. apply scan_checks_fst. Qed.



Lemma finalize_fields (g : Summary.t) :
  Summary.cross_id (finalize g) = Summary.cross_id g
  /\ Summary.genotype (finalize g) = Summary.genotype g
  /\ Summary.date_fertilized (finalize g) = Summary.date_fertilized g
  /\ Summary.dish_count (finalize g) = Summary.dish_count g
  /\ Summary.total_initial (finalize g) = Summary.total_initial g
  /\ Summary.total_surviving (finalize g) = Summary.total_surviving g
  /\ Summary.max_days (finalize g) = Summary.max_days g.
Proof.
  unfold finalize. destruct (Summary.total_initial g >? 0); cbn;
    repeat split; reflexivity.
Qed.

Lemma finalize_rate (g : Summary.t) :
  Summary.survival_rate g = PyInt 0 ->
  Summary.survival_rate (finalize g)
  = rate_of (Summary.total_surviving g) (Summary.total_initial g).
Proof.
  intros Hrate. unfold finalize, rate_of.
  now destruct (Summary.total_initial g >? 0).
Qed.




(** ** Bounds of the summary rows *)

Lemma total_deaths_nonneg (quality_checks : list (string * check)) :
  (forall check_time k,
      In (check_time, Structured k) quality_checks ->
      0 <= get (Check.num_dead k) 0) ->
  0 <= total_deaths quality_checks.
Proof.
  induction quality_checks as [|[check_time c] rest IH]; intros Hdead; simpl;
    [lia|].
  assert (Hrest : 0 <= total_deaths rest).
  { apply IH. intros t k Hin. apply (Hdead t k). now right. }
  destruct c; try exact Hrest.
  pose proof (Hdead check_time c (or_introl eq_refl)). lia.
Qed.

Lemma sum_over_between (f h : Dish.t -> Z) (dishes : list Dish.t) :
  (forall dish, In dish dishes -> 0 <= f dish <= h dish) ->
  0 <= sum_over f dishes <= sum_over h dishes.
Proof.
  induction dishes as [|d dishes IH]; intros Hfh; simpl; [lia|].
  pose proof (Hfh d (or_introl eq_refl)).
  assert (0 <= sum_over f dishes <= sum_over h dishes).
  { apply IH. intros dish Hin. apply Hfh. now right. }
  lia.
Qed.

Lemma ratio_percentage (s t : Z) :
  0 <= s <= t -> 0 < t ->
  (0 <= inject_Z s / inject_Z t * 100
   /\ inject_Z s / inject_Z t * 100 <= 100)%Q.
Proof.
  intros Hs Ht. destruct t as [|p|p]; try lia.
  unfold Qle, Qdiv, Qmult, Qinv, inject_Z. simpl. lia.
Qed.

Lemma group_bounded (dishes members : list Dish.t) (first : Dish.t) :
  (forall dish, In dish dishes -> 0 <= get (Dish.fish_count dish) 0) ->
  (forall dish check_time k,
      In dish dishes ->
      In (check_time, Structured k) (get (Dish.quality_checks dish) []) ->
      0 <= get (Check.num_dead k) 0) ->
  (forall dish, In dish members -> In dish dishes) ->
  let row := finalize (group_record first members) in
  0 <= Summary.total_surviving row <= Summary.total_initial row
  /\ percentage (Summary.survival_rate row).
Proof.
  intros Hcount Hdead Hsub row.
  assert (Hsum : 0 <= sum_over surviving_of members
                 <= sum_over initial_of members).
  { apply sum_over_between. intros dish Hin. apply Hsub in Hin.
    unfold surviving_of, initial_of. rewrite final_count_of_eq.
    pose proof (Hcount dish Hin).
    pose proof (total_deaths_nonneg _ (fun t k => Hdead dish t k Hin)).
    lia. }
  destruct (finalize_fields (group_record first members))
    as (_ & _ & _ & _ & Fi & Fs & _).
  unfold row. rewrite Fi, Fs. split; [exact Hsum|].
  rewrite finalize_rate by reflexivity. unfold rate_of.
  cbn [group_record Summary.total_initial Summary.total_surviving].
  destruct (sum_over initial_of members >? 0) eqn:Hpos.
  - apply Z.gtb_lt in Hpos. now apply ratio_percentage.
  - simpl. lia.
Qed.

(** C10.  When no dish has a negative [fish_count] and no structured check a
    negative [num_dead], the summary is built without an exception and each
    of its rows has [0 <= total_surviving <= total_initial] and
    [0 <= survival_rate <= 100].  The detailed report has no such bound: on
    such dishes [remaining] and [survival_rate] of a row can be negative. *)
Theorem summary_rows_bounded :
  (forall dishes : list Dish.t,
      (forall dish, In dish dishes -> 0 <= get (Dish.fish_count dish) 0) ->
      (forall dish check_time k,
          In dish dishes ->
          In (check_time, Structured k) (get (Dish.quality_checks dish) []) ->
          0 <= get (Check.num_dead k) 0) ->
      exists rows,
        _process_summary_data dishes = Ok rows
        /\ forall row,
            In row rows ->
            0 <= Summary.total_surviving row <= Summary.total_initial row
            /\ percentage (Summary.survival_rate row))
  /\ (exists dish row q,
         0 <= get (Dish.fish_count dish) 0
         /\ (forall check_time k,
                In (check_time, Structured k)
                  (get (Dish.quality_checks dish) []) ->
                0 <= get (Check.num_dead k) 0)
         /\ In row (_process_survivability_data [dish])
         /\ Row.remaining row < 0
         /\ Row.survival_rate row = PyFloat q
         /\ (q < 0)%Q).
Proof.
  split.
  - intros dishes Hcount Hdead. eexists. split; [apply process_summary_ok|].
    intros row Hin.
    apply (proj1 (In_summary_rows dishes _ row (process_summary_ok dishes)))
      in Hin.
    destruct Hin as (k & g & Hget & ->).
    rewrite summary_groups_get in Hget.
    destruct (filter (member k) dishes) as [|first rest] eqn:Hmembers;
      [discriminate|].
    injection Hget as <-.
    apply (group_bounded dishes); auto.
    intros dish Hin. rewrite <- Hmembers in Hin.
    now apply filter_In in Hin.
  - exists dish_overreported,
      (row_of dish_overreported (-2) (Datum.mk "20240102" 5 false 0)),
      (inject_Z (-2) / inject_Z 3 * 100)%Q.
    split; [simpl; lia|]. split.
    + intros check_time k [Hin|[]]. injection Hin as _ <-. simpl. lia.
    + split; [left; reflexivity|]. split; [reflexivity|].
      split; reflexivity.
Qed.

Lemma summary_rows_bounded_witness :
  exists rows,
    _process_summary_data [dish_X3_1; dish_X3_2; dish_overreported] = Ok rows
    /\ forall row,
        In row rows ->
        0 <= Summary.total_surviving row <= Summary.total_initial row
        /\ percentage (Summary.survival_rate row).
Proof.
  apply (proj1 summary_rows_bounded).
  - intros dish [<-|[<-|[<-|[]]]]; simpl; lia.
  - intros dish check_time k [<-|[<-|[<-|[]]]]; simpl.
    + intros [Hin|[]]. injection Hin as _ <-. simpl. lia.
    + intros [Hin|[Hin|[]]]; injection Hin as _ <-; simpl; lia.
    + intros [Hin|[]]. injection Hin as _ <-. simpl. lia.
Defined.

(** ** The latest date and [max_days] *)

Lemma str_gt_false_le (a b : string) : str_gt a b = false -> date_le a b.
Proof.
  unfold str_gt, date_le. rewrite string_ltb_leb.
  intros H. now apply negb_false_iff in H.
Qed.

Lemma str_gt_true_le (a b : string) : str_gt a b = true -> date_le b a.
Proof.
  unfold str_gt, date_le, String.ltb, String.leb.
  now destruct (String.compare b a).
Qed.

Lemma scan_checks_latest (quality_checks : list (string * check)) :
  forall final_count latest_date,
    let latest := snd (scan_checks quality_checks final_count latest_date) in
    date_le latest_date latest
    /\ Forall (fun s => date_le s latest) (structured_dates quality_checks)
    /\ (latest = latest_date \/ In latest (structured_dates quality_checks)).
Proof.
  induction quality_checks as [|[check_time c] rest IH];
    intros final_count latest_date; cbn zeta.
  - simpl. split; [apply string_leb_refl|]. split; [constructor|now left].
  - destruct c as [k|text|]; try exact (IH final_count latest_date).
    cbn [scan_checks structured_dates check_date_of].
    set (check_date := if contains ":"%char check_time
                       then slice_to 8 check_time else check_time).
    set (next := if str_gt check_date latest_date then check_date
                 else latest_date).
    destruct (IH (final_count - get (Check.num_dead k) 0) next)
      as (Hle & Hall & Hin).
    set (latest := snd (scan_checks rest
                          (final_count - get (Check.num_dead k) 0) next))
      in *.
    assert (Hnext : date_le latest_date next /\ date_le check_date next).
    { unfold next. destruct (str_gt check_date latest_date) eqn:Hgt.
      - split; [now apply str_gt_true_le|apply string_leb_refl].
      - split; [apply string_leb_refl|now apply str_gt_false_le]. }
    destruct Hnext as [Hl Hc]. split; [|split].
    + exact (string_leb_trans _ _ _ Hl Hle).
    + constructor; [exact (string_leb_trans _ _ _ Hc Hle)|exact Hall].
    + destruct Hin as [Hin|Hin]; [|right; now right].
      rewrite Hin. unfold next.
      destruct (str_gt check_date latest_date); [right; now left|now left].
Qed.

Lemma latest_date_greatest (dish : Dish.t) :
  let dates := structured_dates (get (Dish.quality_checks dish) []) in
  Forall (fun s => date_le s (latest_date_of dish)) dates
  /\ (latest_date_of dish = "" \/ In (latest_date_of dish) dates).
Proof.
  destruct (scan_checks_latest (get (Dish.quality_checks dish) [])
              (get (Dish.fish_count dish) 0) "") as (_ & Hall & Hin).
  split; [exact Hall|exact Hin].
Qed.

Lemma str_truthy_iff (s : string) : str_truthy s = true <-> s <> "".
Proof. destruct s; simpl; split; congruence. Qed.





(** ** The static fields of a row *)

Lemma rows_room_tuple (dishes : list Dish.t) :
  Forall (fun row => exists s, Row.room row = PyTuple [PyStr s])
    (_process_survivability_data dishes).
Proof.
  apply Forall_forall. intros row Hin.
  destruct (In_process _ _ Hin) as (dish & remaining & c & _ & _ & ->).
  eexists. reflexivity.
Qed.

(** C6 on the dish of the specification's scenario, whose enclosure has
    [room = "2E.282"] and [in_beaker = false]: [in_beaker] is rendered as
    ["No"], but the [room] cell of both rows is the one-element tuple
    [("2E.282",)], not the string. *)
Theorem room_cell_is_tuple :
  map Row.in_beaker (_process_survivability_data [dish_X1]) = ["No"; "No"]
  /\ map Row.room (_process_survivability_data [dish_X1])
     = [PyTuple [PyStr "2E.282"]; PyTuple [PyStr "2E.282"]]
  /\ PyTuple [PyStr "2E.282"] <> PyStr "2E.282".
Proof.
  split; [reflexivity|]. split; [reflexivity|discriminate].
Qed.

(** ** The loader *)

Lemma load_files_valid (json_files : list json_file) :
  load_files json_files = valid_dishes json_files.
Proof.
  induction json_files as [|[name content] rest IH]; simpl; [reflexivity|].
  destruct content as [[dish_data|]|e]; simpl; try exact IH.
  destruct (Dish.dish_id dish_data); [now rewrite IH|exact IH].
Qed.

Lemma valid_dishes_app (l1 l2 : list json_file) :
  valid_dishes (l1 ++ l2) = (valid_dishes l1 ++ valid_dishes l2)%list.
Proof.
  induction l1 as [|[name content] l1 IH]; simpl; [reflexivity|].
  destruct (valid_dish content); simpl; now rewrite IH.
Qed.

Lemma valid_dish_Some (content : result parsed) (dish_data : Dish.t) :
  valid_dish content = Some dish_data <->
  content = Ok (Mapping dish_data) /\ Dish.dish_id dish_data <> None.
Proof.
  unfold valid_dish. destruct content as [[d|]|e]; try (split; [discriminate|]).
  - destruct (Dish.dish_id d) eqn:Hid; split.
    + intros [= ->]. split; [reflexivity|]. now rewrite Hid.
    + intros [[= ->] _]. reflexivity.
    + discriminate.
    + intros [[= ->] Hne]. contradiction.
  - intros [[=] _].
  - intros [[=] _].
Qed.

Lemma In_valid_dishes (json_files : list json_file) (dish_data : Dish.t) :
  In dish_data (valid_dishes json_files) <->
  exists name,
    In (name, Ok (Mapping dish_data)) json_files
    /\ Dish.dish_id dish_data <> None.
Proof.
  induction json_files as [|[name content] rest IH]; simpl.
  - split; [intros []|intros (_ & [] & _)].
  - destruct (valid_dish content) as [d|] eqn:Hvalid.
    + apply valid_dish_Some in Hvalid. destruct Hvalid as [-> Hid].
      simpl. rewrite IH. split.
      * intros [<-|(n & Hin & Hne)].
        -- exists name. split; [now left|exact Hid].
        -- exists n. split; [now right|exact Hne].
      * intros (n & [Heq|Hin] & Hne).
        -- injection Heq as _ <-. now left.
        -- right. now exists n.
    + rewrite IH. split.
      * intros (n & Hin & Hne). exists n. split; [now right|exact Hne].
      * intros (n & [Heq|Hin] & Hne); [|now exists n].
        injection Heq as _ ->.
        assert (valid_dish (Ok (Mapping dish_data)) = Some dish_data)
          by now apply valid_dish_Some.
        congruence.
Qed.

(** C8.  A directory that cannot be listed, and a directory without files,
    give the empty list.  Otherwise the loader returns, in the order of the
    listing, the dishes of the files that parse as a mapping with a
    [dish_id] key: a file that fails to open or parse, holds another JSON
    value or lacks [dish_id] is passed over and the files around it are
    still loaded. *)
Theorem loader_keeps_valid_files :
  (forall e, _collect_dishes_data (Unreadable e) = [])
  /\ _collect_dishes_data (Listing []) = []
  /\ (forall json_files,
         _collect_dishes_data (Listing json_files) = valid_dishes json_files)
  /\ (forall json_files dish_data,
         In dish_data (_collect_dishes_data (Listing json_files)) <->
         exists name,
           In (name, Ok (Mapping dish_data)) json_files
           /\ Dish.dish_id dish_data <> None)
  /\ (forall before after name content,
         valid_dish content = None ->
         _collect_dishes_data (Listing (before ++ (name, content) :: after))
         = _collect_dishes_data (Listing (before ++ after)))
  /\ (forall before after name dish_data,
         Dish.dish_id dish_data <> None ->
         _collect_dishes_data
           (Listing (before ++ (name, Ok (Mapping dish_data)) :: after))
         = (_collect_dishes_data (Listing before)
            ++ dish_data :: _collect_dishes_data (Listing after))%list).
Proof.
  assert (Hvalid : forall json_files,
             _collect_dishes_data (Listing json_files)
             = valid_dishes json_files).
  { intros json_files. unfold _collect_dishes_data. simpl.
    apply load_files_valid. }
  split; [reflexivity|]. split; [reflexivity|]. split; [exact Hvalid|].
  split; [|split].
  - intros json_files dish_data. rewrite Hvalid. apply In_valid_dishes.
  - intros before after name content Hnone.
    rewrite !Hvalid, !valid_dishes_app. simpl. now rewrite Hnone.
  - intros before after name dish_data Hid.
    rewrite !Hvalid, valid_dishes_app. simpl.
    destruct (Dish.dish_id dish_data); [reflexivity|contradiction].
Qed.

Lemma loader_keeps_valid_files_witness :
  valid_dish (Raise JSONDecodeError) = None
  /\ _collect_dishes_data sample_directory = [dish_X1].
Proof.
  split; [reflexivity|].
  destruct loader_keeps_valid_files as (_ & _ & _ & _ & Hskip & _).
  exact (Hskip [] [ ("X1_1.json", Ok (Mapping dish_X1)) ] "broken.json"
           (Raise JSONDecodeError) eq_refl).
Defined.

(** ** The public operations *)

Lemma no_rows_without_checks (dishes : list Dish.t) :
  (forall dish, In dish dishes -> contributes dish = false) ->
  _process_survivability_data dishes = []
  /\ _process_summary_data dishes = Ok [].
Proof.
  intros Hnone.
  assert (Hqc : forall dish, In dish dishes ->
                             get (Dish.quality_checks dish) [] = []).
  { intros dish Hin. specialize (Hnone dish Hin). unfold contributes in Hnone.
    now destruct (get (Dish.quality_checks dish) []). }
  clear Hnone.
  assert (Hgroups : forall summary,
             fold_left summary_dish dishes summary = summary).
  { induction dishes as [|d dishes IH]; intros summary; [reflexivity|].
    cbn [fold_left].
    rewrite summary_dish_unchecked by (apply Hqc; now left).
    apply IH. intros dish Hin. apply Hqc. now right. }
  split.
  - rewrite process_flat_map.
    induction dishes as [|d dishes IH]; [reflexivity|]. cbn [flat_map].
    rewrite dish_rows_unchecked by (apply Hqc; now left).
    apply IH.
    + intros dish Hin. apply Hqc. now right.
    + intros summary. specialize (Hgroups summary). cbn [fold_left] in Hgroups.
      now rewrite summary_dish_unchecked in Hgroups by (apply Hqc; now left).
  - unfold _process_summary_data, summary_groups. now rewrite Hgroups.
Qed.

(** C9.  Both export operations end with a flag, never with an exception.
    When there is nothing to export (no dish in the directory, or no dish
    with quality checks) the flag is [False] and no file is created at the
    output path. *)
Theorem exports_return_flag (w : world) :
  (exists flag file, export_survivability_report w = Ok (flag, file))
  /\ (exists flag file, export_survivability_summary w = Ok (flag, file))
  /\ (no_data w ->
      export_survivability_report w = Ok (false, None)
      /\ export_survivability_summary w = Ok (false, None)).
Proof.
  unfold no_data, export_survivability_report, export_survivability_summary,
    dish_data_dir.
  destruct (data_manager w) as [dish_dir|]; cbn [bind catch].
  - destruct (_collect_dishes_data dish_dir) as [|d dishes] eqn:Hload.
    + repeat split; try (do 2 eexists); reflexivity.
    + rewrite process_summary_ok. cbn [bind catch].
      split; [do 2 eexists; apply f_equal, surjective_pairing|].
      split; [do 2 eexists; apply f_equal, surjective_pairing|].
      intros Hnone. specialize (Hnone _ eq_refl). rewrite Hload in Hnone.
      destruct (no_rows_without_checks (d :: dishes) Hnone)
        as [Hdetail Hsummary].
      rewrite process_summary_ok in Hsummary. injection Hsummary as Hsummary.
      rewrite Hdetail, Hsummary. split; reflexivity.
  - repeat split; try (do 2 eexists); reflexivity.
Qed.

Lemma exports_return_flag_witness :
  no_data world_unchecked
  /\ export_survivability_report world_unchecked = Ok (false, None)
  /\ export_survivability_summary world_unchecked = Ok (false, None)
  /\ export_survivability_report world_empty = Ok (false, None)
  /\ export_survivability_summary world_empty = Ok (false, None).
Proof.
  assert (Hunchecked : no_data world_unchecked).
  { intros dish_dir [= <-] dish [<-|[]]. reflexivity. }
  assert (Hempty : no_data world_empty).
  { intros dish_dir [= <-] dish []. }
  destruct (exports_return_flag world_unchecked) as (_ & _ & Hu).
  destruct (exports_return_flag world_empty) as (_ & _ & He).
  destruct (Hu Hunchecked) as [Hu1 Hu2]. destruct (He Hempty) as [He1 He2].
  repeat split; assumption.
Defined.


(** ** Scenarios *)

Example days_20240101_20240103 :
  _calculate_days_between "20240101" "20240103" = 2.
Proof. reflexivity. Qed.

Example days_across_leap_day :
  _calculate_days_between "20240228" "20240301" = 2.
Proof. reflexivity. Qed.

Example days_unparsable : _calculate_days_between "unknown" "20240301" = 0.
Proof. reflexivity. Qed.

Example days_no_such_day : _calculate_days_between "20230101" "20230229" = 0.
Proof. reflexivity. Qed.

Example days_before_fertilization :
  _calculate_days_between "20240110" "20240101" = -9.
Proof. reflexivity. Qed.

Example ordinal_20240101 : toordinal (mkdate 2024 1 1) = 738886.
Proof. reflexivity. Qed.

(** The scenario of the specification. *)
Example scenario_X1 :
  map (fun r => (Row.check_date r, Row.remaining r, Row.cumulative_deaths r,
                 Row.days_since_fertilization r))
    (_process_survivability_data [dish_X1])
  = [ ("20240101", 10, 0, 0); ("20240103", 8, 2, 2) ].
Proof. reflexivity. Qed.

Example scenario_legacy_latest :
  map Row.days_since_fertilization
    (_process_survivability_data [dish_legacy_latest]) = [0; 9]
  /\ (exists row,
         _process_summary_data [dish_legacy_latest] = Ok [row]
         /\ Summary.max_days row = 0).
Proof. split; [reflexivity|]. eexists. split; reflexivity. Qed.

(** * Further properties of the exporter *)

(** ** Running totals of a dish *)

Lemma sum_Z_app (l1 l2 : list Z) : sum_Z (l1 ++ l2) = sum_Z l1 + sum_Z l2.
Proof. induction l1 as [|z l1 IH]; simpl; [reflexivity|]. rewrite IH. lia. Qed.

Lemma rows_of_running (dish : Dish.t) (check_data : list Datum.t) :
  forall remaining pre row post,
    rows_of dish remaining check_data = (pre ++ row :: post)%list ->
    Row.remaining row
    = remaining - sum_Z (map Row.fish_deaths (pre ++ [row]))
    /\ Row.initial_count row = get (Dish.fish_count dish) 0
    /\ Row.cumulative_deaths row
       = Row.initial_count row - Row.remaining row.
Proof.
  induction check_data as [|c rest IH]; intros remaining pre row post Hrows.
  - destruct pre; discriminate.
  - cbn [rows_of] in Hrows. destruct pre as [|r pre]; cbn [app] in Hrows.
    + injection Hrows as <- _. cbn. repeat split. lia.
    + injection Hrows as <- Hrest.
      destruct (IH _ _ _ _ Hrest) as (Hrem & Hinit & Hcum).
      repeat split; try assumption.
      rewrite Hrem. cbn [app map sum_Z Row.fish_deaths row_of]. lia.
Qed.

(** X1.  In the rows of a dish, [cumulative_deaths] of a row is the sum of
    [fish_deaths] of the rows up to and including it, and [remaining] is the
    [fish_count] of the dish less that sum. *)
Theorem running_totals (dish : Dish.t) (pre post : list Row.t) (row : Row.t) :
  dish_rows dish = (pre ++ row :: post)%list ->
  Row.cumulative_deaths row = sum_Z (map Row.fish_deaths (pre ++ [row]))
  /\ Row.remaining row
     = get (Dish.fish_count dish) 0 - Row.cumulative_deaths row
  /\ Row.initial_count row = get (Dish.fish_count dish) 0.
Proof.
  intros Hrows. rewrite dish_rows_eq in Hrows.
  destruct (rows_of_running _ _ _ _ _ _ Hrows) as (Hrem & Hinit & Hcum).
  rewrite Hcum, Hinit, Hrem. repeat split; lia.
Qed.

Lemma running_totals_witness :
  exists first second,
    dish_rows dish_X3_2 = [first; second]
    /\ Row.fish_deaths first = 1 /\ Row.fish_deaths second = 3
    /\ Row.cumulative_deaths second = 4
    /\ Row.remaining second = 16.
Proof.
  exists (row_of dish_X3_2 19 (Datum.mk "20240102" 1 false 0)),
    (row_of dish_X3_2 16 (Datum.mk "20240105" 3 false 0)).
  split; [reflexivity|]. split; [reflexivity|]. split; [reflexivity|].
  destruct (running_totals dish_X3_2
              [row_of dish_X3_2 19 (Datum.mk "20240102" 1 false 0)] []
              (row_of dish_X3_2 16 (Datum.mk "20240105" 3 false 0)) eq_refl)
    as (Hcum & Hrem & _).
  split; [exact Hcum|exact Hrem].
Defined.

Lemma collect_num_dead_nonneg (quality_checks : list (string * check)) :
  (forall check_time k,
      In (check_time, Structured k) quality_checks ->
      0 <= get (Check.num_dead k) 0) ->
  forall c, In c (collect_check_data quality_checks) -> 0 <= Datum.num_dead c.
Proof.
  induction quality_checks as [|[check_time k] rest IH]; intros Hdead c Hin;
    [contradiction|].
  assert (Hrest : forall c, In c (collect_check_data rest) ->
                            0 <= Datum.num_dead c).
  { apply IH. intros t k' Hk. apply (Hdead t k'). now right. }
  destruct k as [k|text|]; cbn [collect_check_data] in Hin.
  - destruct Hin as [<-|Hin]; [|now apply Hrest].
    cbn. apply (Hdead check_time k). now left.
  - destruct Hin as [<-|Hin]; [cbn; lia|now apply Hrest].
  - now apply Hrest.
Qed.

Lemma dish_rows_deaths_nonneg (dish : Dish.t) :
  (forall check_time k,
      In (check_time, Structured k) (get (Dish.quality_checks dish) []) ->
      0 <= get (Check.num_dead k) 0) ->
  forall row, In row (dish_rows dish) -> 0 <= Row.fish_deaths row.
Proof.
  intros Hdead row Hin. rewrite dish_rows_eq in Hin.
  destruct (In_rows_of _ _ _ _ Hin) as (remaining & c & Hc & ->). cbn.
  unfold sorted_check_data in Hc.
  apply (Permutation_in _ (sort_perm Datum.date String.ltb _)) in Hc.
  now apply (collect_num_dead_nonneg _ Hdead).
Qed.

Lemma sum_Z_nonneg (l : list Z) : (forall z, In z l -> 0 <= z) -> 0 <= sum_Z l.
Proof.
  induction l as [|z l IH]; intros Hl; simpl; [lia|].
  pose proof (Hl z (or_introl eq_refl)).
  assert (0 <= sum_Z l) by (apply IH; intros y Hy; apply Hl; now right).
  lia.
Qed.

(** X2.  When no structured check of a dish reports a negative [num_dead],
    the rows of the dish never take deaths back: from a row to any later row
    [cumulative_deaths] does not decrease and [remaining] does not
    increase. *)
Theorem cumulative_deaths_monotone (dish : Dish.t)
  (pre mid post : list Row.t) (earlier later : Row.t) :
  (forall check_time k,
      In (check_time, Structured k) (get (Dish.quality_checks dish) []) ->
      0 <= get (Check.num_dead k) 0) ->
  dish_rows dish = (pre ++ earlier :: mid ++ later :: post)%list ->
  Row.cumulative_deaths earlier <= Row.cumulative_deaths later
  /\ Row.remaining later <= Row.remaining earlier.
Proof.
  intros Hdead Hrows.
  assert (Hrows1 : rows_of dish (get (Dish.fish_count dish) 0)
                     (sorted_check_data dish)
                   = (pre ++ earlier :: mid ++ later :: post)%list)
    by (now rewrite <- dish_rows_eq).
  assert (Hrows2 : rows_of dish (get (Dish.fish_count dish) 0)
                     (sorted_check_data dish)
                   = ((pre ++ earlier :: mid) ++ later :: post)%list)
    by (rewrite Hrows1, <- app_assoc; reflexivity).
  destruct (rows_of_running _ _ _ _ _ _ Hrows1) as (Hr1 & Hi1 & Hc1).
  destruct (rows_of_running _ _ _ _ _ _ Hrows2) as (Hr2 & Hi2 & Hc2).
  assert (Hgap : 0 <= sum_Z (map Row.fish_deaths (mid ++ [later]))).
  { apply sum_Z_nonneg. intros z Hz. apply in_map_iff in Hz.
    destruct Hz as (row & <- & Hrow).
    apply (dish_rows_deaths_nonneg dish Hdead). rewrite Hrows.
    apply in_or_app. right. right.
    apply in_app_or in Hrow. apply in_or_app.
    destruct Hrow as [Hrow|[<-|[]]]; [now left|right; now left]. }
  assert (Hsplit : sum_Z (map Row.fish_deaths
                            ((pre ++ earlier :: mid) ++ [later]))
                   = sum_Z (map Row.fish_deaths (pre ++ [earlier]))
                     + sum_Z (map Row.fish_deaths (mid ++ [later]))).
  { rewrite <- !app_assoc. cbn [app].
    rewrite !map_app, !sum_Z_app. cbn [map sum_Z].
    rewrite !map_app, !sum_Z_app. cbn [map sum_Z]. lia. }
  rewrite Hc1, Hc2, Hi1, Hi2, Hr1, Hr2, Hsplit. lia.
Qed.

Lemma cumulative_deaths_monotone_witness :
  exists first second,
    dish_rows dish_X3_2 = [first; second]
    /\ Row.cumulative_deaths first <= Row.cumulative_deaths second
    /\ Row.remaining second <= Row.remaining first.
Proof.
  exists (row_of dish_X3_2 19 (Datum.mk "20240102" 1 false 0)),
    (row_of dish_X3_2 16 (Datum.mk "20240105" 3 false 0)).
  split; [reflexivity|].
  apply (cumulative_deaths_monotone dish_X3_2 [] [] []).
  - intros check_time k [Hin|[Hin|[]]]; injection Hin as _ <-; simpl; lia.
  - reflexivity.
Defined.

(** ** The number of rows *)





(** ** Dates: the order of strings and the order of days *)

Lemma days_before_year_succ (y : Z) :
  days_before_year (y + 1) = days_before_year y + 365 + leap_day y.
Proof.
  unfold days_before_year, leap_day, is_leap.
  replace (y + 1 - 1) with y by lia.
  destruct (y mod 4 =? 0) eqn:H4; destruct (y mod 100 =? 0) eqn:H100;
    destruct (y mod 400 =? 0) eqn:H400; cbn [andb orb negb];
    rewrite ?Z.eqb_eq, ?Z.eqb_neq in *;
    Z.to_euclidean_division_equations; lia.
Qed.

Lemma days_before_year_mono (y : Z) (n : Z) :
  0 <= n -> days_before_year y + 365 * n <= days_before_year (y + n).
Proof.
  intros Hn. revert n Hn. apply natlike_ind.
  - replace (y + 0) with y by lia. lia.
  - intros n Hn IH. replace (y + Z.succ n) with ((y + n) + 1) by lia.
    rewrite days_before_year_succ. unfold leap_day.
    destruct (is_leap (y + n)); lia.
Qed.

Lemma month_cases (m : Z) :
  1 <= m <= 12 ->
  m = 1 \/ m = 2 \/ m = 3 \/ m = 4 \/ m = 5 \/ m = 6 \/ m = 7 \/ m = 8
  \/ m = 9 \/ m = 10 \/ m = 11 \/ m = 12.
Proof. lia. Qed.

Ltac months :=
  unfold days_before_month;
  repeat match goal with
         | |- context [Z.to_nat ?e] =>
             let n := eval compute in (Z.to_nat e) in
             change (Z.to_nat e) with n
         end;
  cbn [days_before_month_aux Z.of_nat Pos.of_succ_nat Pos.succ];
  unfold days_in_month; cbn [Z.eqb Pos.eqb orb].

Ltac split_month H :=
  apply month_cases in H;
  repeat (destruct H as [H|H]; [subst|]); subst.

Lemma days_in_month_pos (y m : Z) : 28 <= days_in_month y m <= 31.
Proof.
  unfold days_in_month.
  destruct (m =? 2); [destruct (is_leap y); lia|].
  destruct ((m =? 4) || (m =? 6) || (m =? 9) || (m =? 11)); lia.
Qed.

Lemma days_before_month_mono (y m m' : Z) :
  1 <= m -> m < m' -> m' <= 12 ->
  days_before_month y m + days_in_month y m <= days_before_month y m'.
Proof.
  intros H1 Hlt H12.
  assert (Hm : 1 <= m <= 12) by lia. assert (Hm' : 1 <= m' <= 12) by lia.
  split_month Hm; split_month Hm'; try lia;
    months; destruct (is_leap y); lia.
Qed.

Lemma days_in_year (y m : Z) :
  1 <= m <= 12 ->
  days_before_month y m + days_in_month y m <= 365 + leap_day y.
Proof.
  intros Hm. unfold leap_day.
  split_month Hm; months; destruct (is_leap y); lia.
Qed.

Lemma days_before_month_nonneg (y m : Z) :
  1 <= m <= 12 -> 0 <= days_before_month y m.
Proof.
  intros Hm. split_month Hm; months; destruct (is_leap y); lia.
Qed.

Lemma toordinal_lt (d1 d2 : date) :
  valid_date d1 -> valid_date d2 ->
  date_number d1 < date_number d2 -> toordinal d1 < toordinal d2.
Proof.
  destruct d1 as [y1 m1 k1], d2 as [y2 m2 k2].
  unfold valid_date, date_number, toordinal. cbn [year month day].
  intros (Hy1 & Hm1 & Hk1) (Hy2 & Hm2 & Hk2) Hlt.
  pose proof (days_in_month_pos y1 m1). pose proof (days_in_month_pos y2 m2).
  destruct (Z.lt_trichotomy y1 y2) as [Hy|[Hy|Hy]]; [| |lia].
  - pose proof (days_in_year y1 m1 Hm1).
    pose proof (days_before_year_succ y1).
    pose proof (days_before_year_mono (y1 + 1) (y2 - (y1 + 1)) ltac:(lia))
      as Hmono.
    replace (y1 + 1 + (y2 - (y1 + 1))) with y2 in Hmono by lia.
    pose proof (days_before_month_nonneg y2 m2 Hm2). lia.
  - subst y2.
    destruct (Z.lt_trichotomy m1 m2) as [Hm|[Hm|Hm]]; [| |lia].
    + pose proof (days_before_month_mono y1 m1 m2 ltac:(lia) Hm ltac:(lia)).
      lia.
    + subst m2. lia.
Qed.

Lemma digit_of_spec (c : ascii) (x : Z) :
  digit_of c = Some x -> 0 <= x <= 9 /\ Z.of_N (N_of_ascii c) = x + 48.
Proof.
  unfold digit_of.
  destruct ((48 <=? Z.of_N (N_of_ascii c)) && (Z.of_N (N_of_ascii c) <=? 57))
    eqn:Hrange; [|discriminate].
  intros [= <-]. apply andb_true_iff in Hrange. lia.
Qed.

Lemma ascii_compare_digit (a b : ascii) (x y : Z) :
  digit_of a = Some x -> digit_of b = Some y -> Ascii.compare a b = (x ?= y).
Proof.
  intros Ha Hb. apply digit_of_spec in Ha, Hb.
  unfold Ascii.compare. rewrite <- N2Z.inj_compare.
  destruct Ha as [_ ->], Hb as [_ ->].
  rewrite (Z.add_comm x), (Z.add_comm y). apply Z.add_compare_mono_l.
Qed.

Lemma decimal_bound (s : string) :
  all_digits s = true -> 0 <= decimal s < 10 ^ Z.of_nat (String.length s).
Proof.
  induction s as [|c s IH]; cbn [all_digits decimal String.length];
    [simpl; lia|].
  destruct (digit_of c) as [x|] eqn:Hc; [|discriminate]. intros Hs.
  specialize (IH Hs). apply digit_of_spec in Hc. cbn [get].
  rewrite Nat2Z.inj_succ, Z.pow_succ_r by lia. nia.
Qed.

Lemma compare_decimal (s : string) :
  forall t,
    all_digits s = true -> all_digits t = true ->
    String.length s = String.length t ->
    String.compare s t = (decimal s ?= decimal t).
Proof.
  induction s as [|a s IH]; intros [|b t]; cbn [String.length];
    try discriminate.
  - reflexivity.
  - cbn [all_digits decimal String.compare].
    destruct (digit_of a) as [x|] eqn:Ha; [|discriminate].
    destruct (digit_of b) as [y|] eqn:Hb; [|discriminate].
    intros Hs Ht [= Hlen]. cbn [get].
    rewrite (ascii_compare_digit _ _ _ _ Ha Hb), <- Hlen.
    pose proof (decimal_bound s Hs). pose proof (decimal_bound t Ht) as Hbt.
    rewrite <- Hlen in Hbt.
    destruct (Z.compare_spec x y) as [->|Hlt|Hgt].
    + rewrite (IH t Hs Ht Hlen). symmetry. apply Z.add_compare_mono_l.
    + symmetry. apply Z.compare_lt_iff. nia.
    + symmetry. apply Z.compare_gt_iff. nia.
Qed.

Lemma digit_in_spec (lo hi : Z) (c : ascii) (y : Z) :
  digit_in lo hi c = Some y -> digit_of c = Some y /\ lo <= y <= hi.
Proof.
  unfold digit_in. destruct (digit_of c) as [v|]; [|discriminate].
  destruct ((lo <=? v) && (v <=? hi)) eqn:Hr; [|discriminate].
  intros [= <-]. apply andb_true_iff in Hr. split; [reflexivity|lia].
Qed.

Lemma two_chars_inv (first : ascii) (lo hi : Z) (s rest : string) (v : Z) :
  two_chars first lo hi s = Some (v, rest) ->
  exists b y,
    s = String first (String b rest) /\ digit_of b = Some y /\ lo <= y <= hi
    /\ v = match digit_of first with Some x => x * 10 + y | None => y end.
Proof.
  unfold two_chars. destruct s as [|a [|b r]]; try discriminate.
  destruct (Ascii.eqb a first) eqn:Ha; [|discriminate].
  apply Ascii.eqb_eq in Ha. subst a.
  destruct (digit_in lo hi b) as [y|] eqn:Hb.
  - apply digit_in_spec in Hb. destruct Hb as [Hb Hr].
    destruct (digit_of first); intros [= <- <-]; exists b, y; auto.
  - destruct (digit_of first); discriminate.
Qed.

Lemma one_char_inv (lo hi : Z) (s rest : string) (v : Z) :
  one_char lo hi s = Some (v, rest) ->
  exists a, s = String a rest /\ digit_of a = Some v /\ lo <= v <= hi.
Proof.
  unfold one_char. destruct s as [|a r]; [discriminate|].
  destruct (digit_in lo hi a) as [x|] eqn:Ha; [|discriminate].
  intros [= <- <-]. apply digit_in_spec in Ha. exists a. tauto.
Qed.

Lemma first_match_inv {A : Type} (alts : list (string -> option (Z * string)))
  (k : Z -> string -> option A) (s : string) (r : A) :
  first_match alts k s = Some r ->
  exists alt v rest, In alt alts /\ alt s = Some (v, rest) /\ k v rest = Some r.
Proof.
  induction alts as [|alt alts IH]; cbn [first_match]; [discriminate|].
  destruct (alt s) as [[v rest]|] eqn:Halt.
  - destruct (k v rest) as [r'|] eqn:Hk.
    + intros [= <-]. exists alt, v, rest. split; [now left|]. now split.
    + intros H. destruct (IH H) as (alt' & v' & rest' & Hin & Ha & Hk').
      exists alt', v', rest'. split; [now right|]. now split.
  - intros H. destruct (IH H) as (alt' & v' & rest' & Hin & Ha & Hk').
    exists alt', v', rest'. split; [now right|]. now split.
Qed.

Lemma all_digits_cons (c : ascii) (s : string) :
  all_digits (String c s) = true ->
  exists x, digit_of c = Some x /\ all_digits s = true.
Proof.
  cbn [all_digits]. destruct (digit_of c) as [x|]; [|discriminate].
  intros Hs. now exists x.
Qed.

Ltac invert_alt H :=
  first
    [ apply two_chars_inv in H;
      let b := fresh "b" in
      let y := fresh "y" in
      let Hs := fresh "Hs" in
      let Hb := fresh "Hb" in
      let Hr := fresh "Hr" in
      let Hv := fresh "Hv" in
      destruct H as (b & y & Hs & Hb & Hr & Hv)
    | apply one_char_inv in H;
      let a := fresh "a" in
      let Hs := fresh "Hs" in
      let Ha := fresh "Ha" in
      let Hr := fresh "Hr" in
      destruct H as (a & Hs & Ha & Hr) ].

Lemma strptime_date_string (s : string) (d : date) :
  is_date_string s = true -> strptime s = Ok d ->
  valid_date d /\ decimal s = date_number d.
Proof.
  unfold is_date_string. intros Hs Hparse.
  apply andb_true_iff in Hs. destruct Hs as [Hlen Hdigits].
  apply Nat.eqb_eq in Hlen.
  destruct s as [|c1 [|c2 [|c3 [|c4 [|c5 [|c6 [|c7 [|c8 [|c9 s]]]]]]]]];
    try discriminate Hlen. clear Hlen.
  apply all_digits_cons in Hdigits. destruct Hdigits as (x1 & H1 & Hdigits).
  apply all_digits_cons in Hdigits. destruct Hdigits as (x2 & H2 & Hdigits).
  apply all_digits_cons in Hdigits. destruct Hdigits as (x3 & H3 & Hdigits).
  apply all_digits_cons in Hdigits. destruct Hdigits as (x4 & H4 & Hdigits).
  apply all_digits_cons in Hdigits. destruct Hdigits as (x5 & H5 & Hdigits).
  apply all_digits_cons in Hdigits. destruct Hdigits as (x6 & H6 & Hdigits).
  apply all_digits_cons in Hdigits. destruct Hdigits as (x7 & H7 & Hdigits).
  apply all_digits_cons in Hdigits. destruct Hdigits as (x8 & H8 & _).
  unfold strptime in Hparse.
  destruct (regex_match _) as [[[[y m] k] rest]|] eqn:Hre; [|discriminate].
  destruct rest as [|r rest]; [|discriminate]. cbn [str_truthy] in Hparse.
  destruct ((1 <=? y) && (1 <=? k) && (k <=? days_in_month y m)) eqn:Hvalid;
    [|discriminate].
  injection Hparse as <-.
  unfold regex_match, match_Y in Hre. rewrite H1, H2, H3, H4 in Hre.
  apply first_match_inv in Hre.
  destruct Hre as (altm & vm & restm & Hinm & Haltm & Hday).
  apply first_match_inv in Hday.
  destruct Hday as (altd & vd & restd & Hind & Haltd & Hres).
  injection Hres as Hy0 Hvm Hvd Hrest. subst y m k restd.
  assert (Hmd : vm = x5 * 10 + x6 /\ vd = x7 * 10 + x8 /\ 1 <= vm <= 12).
  { clear Hvalid.
    assert (D0 : digit_of "0"%char = Some 0) by reflexivity.
    assert (D1 : digit_of "1"%char = Some 1) by reflexivity.
    assert (D2 : digit_of "2"%char = Some 2) by reflexivity.
    assert (D3 : digit_of "3"%char = Some 3) by reflexivity.
    assert (Dsp : digit_of " "%char = None) by reflexivity.
    cbn [alternatives_m In] in Hinm.
    cbn [alternatives_d In] in Hind.
    repeat (destruct Hinm as [<-|Hinm]; [|]); try contradiction;
      invert_alt Haltm; injection Hs as ? ?; subst;
      repeat (destruct Hind as [<-|Hind]; [|]); try contradiction;
      invert_alt Haltd; try discriminate; injection Hs as ? ?; subst;
      rewrite ?D0, ?D1, ?D2, ?D3, ?Dsp in *; cbv beta iota in *;
      repeat match goal with
             | Ha : ?l = Some _, Hb : ?l = Some _ |- _ =>
                 rewrite Ha in Hb; injection Hb as ?; subst
             | H : Some _ = Some _ |- _ => injection H as ?; subst
             end;
      try discriminate; lia. }
  destruct Hmd as (-> & -> & Hm).
  apply andb_true_iff in Hvalid. destruct Hvalid as [Hvalid Hk2].
  apply andb_true_iff in Hvalid. destruct Hvalid as [Hy Hk1].
  split.
  - unfold valid_date. cbn [year month day]. lia.
  - unfold date_number. cbn [year month day decimal String.length].
    rewrite H1, H2, H3, H4, H5, H6, H7, H8. cbn [get]. cbn. lia.
Qed.

Lemma days_between_parsed (a b : string) (da db : date) :
  strptime a = Ok da -> strptime b = Ok db ->
  _calculate_days_between a b = toordinal db - toordinal da.
Proof.
  intros Ha Hb. unfold _calculate_days_between. now rewrite Ha, Hb.
Qed.

Lemma toordinal_date_number (d1 d2 : date) :
  valid_date d1 -> valid_date d2 ->
  (date_number d1 ?= date_number d2) = (toordinal d1 ?= toordinal d2).
Proof.
  intros H1 H2.
  destruct (Z.compare_spec (date_number d1) (date_number d2)) as [Heq|Hlt|Hgt].
  - assert (d1 = d2) as ->.
    { destruct d1 as [y1 m1 k1], d2 as [y2 m2 k2].
      unfold valid_date, date_number in *. cbn [year month day] in *.
      pose proof (days_in_month_pos y1 m1).
      pose proof (days_in_month_pos y2 m2).
      assert (y1 = y2 /\ m1 = m2 /\ k1 = k2) as (-> & -> & ->) by lia.
      reflexivity. }
    symmetry. apply Z.compare_refl.
  - symmetry. apply Z.compare_lt_iff. now apply toordinal_lt.
  - symmetry. apply Z.compare_gt_iff. now apply toordinal_lt.
Qed.

(** X5.  For two dates in the documented form, eight digits that
    [strptime] accepts, the order of the strings is the order of the days:
    [a < b] exactly when [_calculate_days_between a b] is positive, and the
    strings are equal exactly when it is 0.  Sorting the checks by their
    date strings is then sorting them by calendar day. *)
Theorem string_order_is_day_order (a b : string) (da db : date) :
  is_date_string a = true -> is_date_string b = true ->
  strptime a = Ok da -> strptime b = Ok db ->
  (String.ltb a b = true <-> 0 < _calculate_days_between a b)
  /\ (a = b <-> _calculate_days_between a b = 0).
Proof.
  intros Ha Hb Pa Pb.
  destruct (strptime_date_string a da Ha Pa) as [Va Na].
  destruct (strptime_date_string b db Hb Pb) as [Vb Nb].
  rewrite (days_between_parsed a b da db Pa Pb).
  assert (Hcmp : String.compare a b = (toordinal da ?= toordinal db)).
  { unfold is_date_string in Ha, Hb.
    apply andb_true_iff in Ha, Hb. destruct Ha as [La Da], Hb as [Lb Db].
    apply Nat.eqb_eq in La, Lb.
    rewrite (compare_decimal a b Da Db) by congruence.
    rewrite Na, Nb. now apply toordinal_date_number. }
  split.
  - unfold String.ltb. rewrite Hcmp.
    destruct (Z.compare_spec (toordinal da) (toordinal db)); split;
      intros; try discriminate; try reflexivity; lia.
  - split.
    + intros ->. rewrite Pa in Pb. injection Pb as ->. lia.
    + intros Hzero. apply String.compare_eq_iff. rewrite Hcmp.
      apply Z.compare_eq_iff. lia.
Qed.

Lemma string_order_is_day_order_witness :
  is_date_string "20240228" = true /\ is_date_string "20240301" = true
  /\ String.ltb "20240228" "20240301" = true
  /\ 0 < _calculate_days_between "20240228" "20240301".
Proof.
  split; [reflexivity|]. split; [reflexivity|]. split; [reflexivity|].
  apply (string_order_is_day_order "20240228" "20240301"
           (mkdate 2024 2 28) (mkdate 2024 3 1) eq_refl eq_refl eq_refl
           eq_refl).
  reflexivity.
Defined.

(** The digits matter: [strptime] also accepts a day padded with a space,
    and such a string sorts before the days it comes after. *)
Example space_padded_day :
  strptime "202401 5" = Ok (mkdate 2024 1 5)
  /\ String.ltb "202401 5" "20240101" = true
  /\ _calculate_days_between "202401 5" "20240101" = -4.
Proof. repeat split. Qed.

(** X4.  [_calculate_days_between] is antisymmetric and is 0 from a date to
    itself; it is also 0 whenever one of the two strings fails to parse, and
    it adds up along three dates that parse. *)
Theorem days_between_algebra :
  (forall a b, _calculate_days_between a b = - _calculate_days_between b a)
  /\ (forall a, _calculate_days_between a a = 0)
  /\ (forall a b e,
         strptime a = Raise e \/ strptime b = Raise e ->
         _calculate_days_between a b = 0)
  /\ (forall a b c da db dc,
         strptime a = Ok da -> strptime b = Ok db -> strptime c = Ok dc ->
         _calculate_days_between a c
         = _calculate_days_between a b + _calculate_days_between b c).
Proof.
  unfold _calculate_days_between. repeat split.
  - intros a b. destruct (strptime a), (strptime b); cbn; lia.
  - intros a. destruct (strptime a); cbn; lia.
  - intros a b e [H|H]; rewrite H; [reflexivity|].
    now destruct (strptime a).
  - intros a b c da db dc -> -> ->. cbn. lia.
Qed.

Lemma days_between_algebra_witness :
  strptime "2024-01-01" = Raise ValueError
  /\ _calculate_days_between "2024-01-01" "20240105" = 0
  /\ _calculate_days_between "20231231" "20240105"
     = _calculate_days_between "20231231" "20240101"
       + _calculate_days_between "20240101" "20240105".
Proof.
  destruct days_between_algebra as (_ & _ & Hfail & Hadd).
  split; [reflexivity|]. split.
  - apply (Hfail _ _ ValueError). left. reflexivity.
  - apply (Hadd _ _ _ (mkdate 2023 12 31) (mkdate 2024 1 1)
             (mkdate 2024 1 5)); reflexivity.
Defined.

(** ** Days since fertilization along the rows of a dish *)

Lemma dish_rows_sorted (dish : Dish.t) :
  StronglySorted
    (fun r1 r2 => date_le (Row.check_date r1) (Row.check_date r2))
    (dish_rows dish).
Proof.
  apply (StronglySorted_map datum_of_row
           (fun a b => date_le (Datum.date a) (Datum.date b))).
  rewrite dish_rows_eq, map_datum_rows_of. apply check_data_sorted.
Qed.

Lemma StronglySorted_pair {A : Type} (R : A -> A -> Prop)
  (pre mid post : list A) (a b : A) :
  StronglySorted R (pre ++ a :: mid ++ b :: post) -> R a b.
Proof.
  induction pre as [|x pre IH]; cbn [app]; intros Hs.
  - apply StronglySorted_inv in Hs. destruct Hs as [_ Hall].
    rewrite Forall_forall in Hall. apply Hall.
    apply in_or_app. right. now left.
  - apply StronglySorted_inv in Hs. now apply IH.
Qed.

Lemma dish_rows_dates (dish : Dish.t) (row : Row.t) :
  In row (dish_rows dish) ->
  exists entry,
    In entry (get (Dish.quality_checks dish) [])
    /\ is_check entry = true
    /\ Row.check_date row = entry_date entry.
Proof.
  intros Hin. rewrite dish_rows_eq in Hin.
  destruct (In_rows_of _ _ _ _ Hin) as (remaining & c & Hc & ->).
  unfold sorted_check_data in Hc.
  apply (Permutation_in _ (sort_perm Datum.date String.ltb _)) in Hc.
  apply (in_map Datum.date) in Hc. rewrite collect_dates in Hc.
  apply in_map_iff in Hc. destruct Hc as (entry & Hdate & Hentry).
  apply filter_In in Hentry. destruct Hentry as [Hentry Hcheck].
  exists entry. split; [exact Hentry|]. split; [exact Hcheck|].
  unfold entry_date. rewrite Hdate. reflexivity.
Qed.

Lemma compare_parsed (a b : string) (da db : date) :
  is_date_string a = true -> is_date_string b = true ->
  strptime a = Ok da -> strptime b = Ok db ->
  String.compare a b = (toordinal da ?= toordinal db).
Proof.
  intros Ha Hb Pa Pb.
  destruct (strptime_date_string a da Ha Pa) as [Va Na].
  destruct (strptime_date_string b db Hb Pb) as [Vb Nb].
  unfold is_date_string in Ha, Hb.
  apply andb_true_iff in Ha, Hb. destruct Ha as [La Da], Hb as [Lb Db].
  apply Nat.eqb_eq in La, Lb.
  rewrite (compare_decimal a b Da Db) by congruence.
  rewrite Na, Nb. now apply toordinal_date_number.
Qed.

(** X6.  When the canonical date of every check of a dish is eight digits
    that [strptime] accepts, [days_since_fertilization] does not decrease
    from a row of the dish to a later row (whether [dof] parses or not). *)
Theorem days_nondecreasing (dish : Dish.t) (pre mid post : list Row.t)
  (earlier later : Row.t) :
  (forall entry,
      In entry (get (Dish.quality_checks dish) []) ->
      is_check entry = true ->
      is_date_string (entry_date entry) = true
      /\ exists d, strptime (entry_date entry) = Ok d) ->
  dish_rows dish = (pre ++ earlier :: mid ++ later :: post)%list ->
  Row.days_since_fertilization earlier <= Row.days_since_fertilization later.
Proof.
  intros Hdates Hrows.
  pose proof (dish_rows_sorted dish) as Hsorted. rewrite Hrows in Hsorted.
  apply StronglySorted_pair in Hsorted.
  assert (H1 : In earlier (dish_rows dish)).
  { rewrite Hrows. apply in_or_app. right. now left. }
  assert (H2 : In later (dish_rows dish)).
  { rewrite Hrows. apply in_or_app. right. right.
    apply in_or_app. right. now left. }
  rewrite dish_rows_eq in H1, H2.
  destruct (In_rows_of _ _ _ _ H1) as (rem1 & c1 & _ & E1).
  destruct (In_rows_of _ _ _ _ H2) as (rem2 & c2 & _ & E2).
  rewrite <- dish_rows_eq in H1, H2.
  destruct (dish_rows_dates dish earlier H1) as (e1 & He1 & Hc1 & Hd1).
  destruct (dish_rows_dates dish later H2) as (e2 & He2 & Hc2 & Hd2).
  destruct (Hdates e1 He1 Hc1) as (S1 & d1 & P1).
  destruct (Hdates e2 He2 Hc2) as (S2 & d2 & P2).
  rewrite <- Hd1 in S1, P1. rewrite <- Hd2 in S2, P2.
  unfold date_le, String.leb in Hsorted.
  rewrite (compare_parsed _ _ d1 d2 S1 S2 P1 P2) in Hsorted.
  assert (Hord : toordinal d1 <= toordinal d2).
  { destruct (Z.compare_spec (toordinal d1) (toordinal d2));
      [lia|lia|discriminate]. }
  assert (Hdays : forall row remaining c,
             row = row_of dish remaining c ->
             Row.days_since_fertilization row
             = _calculate_days_between (get (Dish.dof dish) "unknown")
                 (Row.check_date row)).
  { intros row remaining c ->. reflexivity. }
  rewrite (Hdays _ _ _ E1), (Hdays _ _ _ E2).
  unfold _calculate_days_between. rewrite P1, P2.
  destruct (strptime (get (Dish.dof dish) "unknown")); cbn; lia.
Qed.

Lemma days_nondecreasing_witness :
  exists first second,
    dish_rows dish_X1 = [first; second]
    /\ Row.days_since_fertilization first
       <= Row.days_since_fertilization second.
Proof.
  exists (row_of dish_X1 10 (Datum.mk "20240101" 0 false 0)),
    (row_of dish_X1 8 (Datum.mk "20240103" 2 false 0)).
  split; [reflexivity|].
  apply (days_nondecreasing dish_X1 [] [] []).
  - intros entry [<-|[<-|[]]] _; (split; [reflexivity|]).
    + now exists (mkdate 2024 1 1).
    + now exists (mkdate 2024 1 3).
  - reflexivity.
Defined.

(** ** The order of the summary rows *)






(** ** One row for each group key *)



(** ** What the summary adds up to *)

Section Conservation.
Variable f : Summary.t -> Z.
Variable delta : Dish.t -> Z.
Hypothesis f_absorb : forall dish g, f (absorb dish g) = f g + delta dish.
Hypothesis f_new : forall dish, f (new_group dish) = 0.
Hypothesis f_finalize : forall g, f (finalize g) = f g.







End Conservation.



(** ** Group keys that collide *)






(** ** What an export writes *)

Lemma write_csv_outcome {A : Type} `{Keyed A} (writable : bool)
  (report_data : list A) :
  _write_csv_report writable report_data
  = match report_data with
    | [] => (false, None)
    | first :: _ =>
        if writable
        then (true, Some (mkcsv (keys_of first) report_data))
        else (false, None)
    end.
Proof.
  unfold _write_csv_report. destruct report_data; [reflexivity|].
  now destruct writable.
Qed.










(** The converse fails on a dish whose only check is neither an object nor
    a string: it gives no detailed row, but it is counted in the summary. *)
Example summary_without_detail :
  export_survivability_report world_malformed = Ok (false, None)
  /\ exists file,
      export_survivability_summary world_malformed = Ok (true, Some file)
      /\ map Summary.dish_count (records file) = [1].
Proof. split; [reflexivity|]. eexists. split; reflexivity. Qed.

(** ** The command line script *)

Lemma report_export_total (w : world) :
  exists flag file,
    export_survivability_report w = Ok (flag, file)
    /\ (flag = true <-> file <> None).
Proof.
  unfold export_survivability_report, dish_data_dir.
  destruct (data_manager w) as [dish_dir|]; cbn [bind catch].
  - destruct (_collect_dishes_data dish_dir) as [|d dishes].
    + exists false, None. split; [reflexivity|].
      split; [discriminate|congruence].
    + rewrite write_csv_outcome.
      destruct (_process_survivability_data (d :: dishes)) as [|row rows].
      * exists false, None. split; [reflexivity|].
        split; [discriminate|congruence].
      * destruct (writable w).
        -- do 2 eexists. split; [reflexivity|].
           split; [discriminate|reflexivity].
        -- exists false, None. split; [reflexivity|].
           split; [discriminate|congruence].
  - exists false, None. split; [reflexivity|].
    split; [discriminate|congruence].
Qed.

Lemma summary_export_total (w : world) :
  exists flag file,
    export_survivability_summary w = Ok (flag, file)
    /\ (flag = true <-> file <> None).
Proof.
  unfold export_survivability_summary, dish_data_dir.
  destruct (data_manager w) as [dish_dir|]; cbn [bind catch].
  - destruct (_collect_dishes_data dish_dir) as [|d dishes].
    + exists false, None. split; [reflexivity|].
      split; [discriminate|congruence].
    + rewrite process_summary_ok. cbn [bind catch].
      rewrite write_csv_outcome.
      destruct (sort summary_sort_key tuple_lt _) as [|row rows].
      * exists false, None. split; [reflexivity|].
        split; [discriminate|congruence].
      * destruct (writable w).
        -- do 2 eexists. split; [reflexivity|].
           split; [discriminate|reflexivity].
        -- exists false, None. split; [reflexivity|].
           split; [discriminate|congruence].
  - exists false, None. split; [reflexivity|].
    split; [discriminate|congruence].
Qed.



(** X15.  Run as a script, where the data manager is the fresh singleton,
    [--dishes-dir] changes nothing: [initialize] runs after the option is
    applied and takes the directory from the configuration, or the local
    one, whatever was set.  The option is honoured only when the manager is
    already initialized. *)
Theorem dishes_dir_overwritten (s : site) (args : Args.t) :
  main s args Manager.fresh
  = main s (Args.without_dishes_dir args) Manager.fresh
  /\ main s args Manager.fresh
     = main s (Args.without_dishes_dir args)
         (Manager.mk
            (Some (get (config_dish_dir s) (local_dish_dir s))) true)
  /\ (forall dir old,
         Args.dishes_dir args = Some dir -> str_truthy dir = true ->
         main s args (Manager.mk old true)
         = main s (Args.without_dishes_dir args)
             (Manager.mk (Some dir) true)).
Proof.
  unfold main, Args.without_dishes_dir, Manager.fresh, initialize.
  cbn [Args.dishes_dir Args.output Args.summary Args.summary_output
       Args.both Manager.is_initialized negb].
  split; [|split].
  - destruct (Args.dishes_dir args) as [dir|]; [|reflexivity].
    destruct (str_truthy dir); reflexivity.
  - destruct (Args.dishes_dir args) as [dir|];
      [destruct (str_truthy dir)|]; destruct (config_dish_dir s);
      reflexivity.
  - intros dir old -> ->. reflexivity.
Qed.

Lemma dishes_dir_overwritten_witness :
  Args.dishes_dir sample_args = Some "/tmp/other"
  /\ (exists detailed summary,
         main sample_site sample_args Manager.fresh
         = (0, Some detailed, Some summary)
         /\ records detailed = _process_survivability_data [dish_X1])
  /\ (exists detailed summary,
         main sample_site sample_args (Manager.mk None true)
         = (0, Some detailed, Some summary)
         /\ records detailed
            = _process_survivability_data [dish_overreported]).
Proof.
  split; [reflexivity|].
  destruct (dishes_dir_overwritten sample_site sample_args)
    as (_ & _ & Hhonoured).
  split.
  - do 2 eexists. split; reflexivity.
  - rewrite (Hhonoured "/tmp/other" None eq_refl eq_refl).
    do 2 eexists. split; reflexivity.
Defined.

(** ** The export dialog *)

(** X16.  The dialog exports nothing when a report is selected and its path
    field is empty.  Otherwise it runs every selected export: the summary
    export runs whatever the detailed export returned, and the dialog
    reports success exactly when none of the exports it ran returned
    [False].  Its exception handler is never reached. *)
Theorem dialog_runs_selected_exports (s : site) (m : Manager.t)
  (export_detail export_summary export_both : bool)
  (detailed_path summary_path : string) :
  let export_detailed := export_detail || export_both in
  let export_summary' := export_summary || export_both in
  let outcome :=
    export_data s m export_detail export_summary export_both detailed_path
      summary_path in
  outcome <> Crashed
  /\ ((export_detailed = true /\ detailed_path = ""
       \/ export_summary' = true /\ summary_path = "") ->
      outcome = PathMissing)
  /\ ((export_detailed = true -> detailed_path <> "") ->
      (export_summary' = true -> summary_path <> "") ->
      exists f1 file1 f2 file2,
        (if export_detailed
         then export_survivability_report
                (export_world s (listing s) m detailed_path)
         else Ok (true, None)) = Ok (f1, file1)
        /\ (if export_summary'
            then export_survivability_summary
                   (export_world s (listing_later s) m summary_path)
            else Ok (true, None)) = Ok (f2, file2)
        /\ outcome = Exported (f1 && f2) file1 file2).
Proof.
  cbv zeta. unfold export_data.
  destruct (report_export_total
              (export_world s (listing s) m detailed_path))
    as (f1 & file1 & E1 & _).
  destruct (summary_export_total
              (export_world s (listing_later s) m summary_path))
    as (f2 & file2 & E2 & _).
  rewrite E1, E2.
  split; [|split].
  - destruct (export_detail || export_both),
      (export_summary || export_both), (str_truthy detailed_path),
      (str_truthy summary_path); cbn; discriminate.
  - intros [[Hd ->]|[Hs ->]].
    + rewrite Hd. reflexivity.
    + rewrite Hs. cbn [str_truthy negb andb].
      destruct (export_detail || export_both); cbn [andb];
        [destruct (str_truthy detailed_path)|]; reflexivity.
  - intros Hd Hs.
    assert (Hd' : (export_detail || export_both)
                  && negb (str_truthy detailed_path) = false).
    { destruct (export_detail || export_both); [|reflexivity].
      destruct detailed_path; [now contradiction (Hd eq_refl)|reflexivity]. }
    assert (Hs' : (export_summary || export_both)
                  && negb (str_truthy summary_path) = false).
    { destruct (export_summary || export_both); [|reflexivity].
      destruct summary_path; [now contradiction (Hs eq_refl)|reflexivity]. }
    rewrite Hd', Hs'.
    destruct (export_detail || export_both),
      (export_summary || export_both); cbn [bind try_except fst snd];
      do 4 eexists; repeat split; reflexivity.
Qed.

Lemma dialog_runs_selected_exports_witness :
  export_data malformed_site (Manager.mk (Some "/lab/dishes") true)
    false false true "" "summary.csv" = PathMissing
  /\ exists summary,
      export_data malformed_site (Manager.mk (Some "/lab/dishes") true)
        false false true "report.csv" "summary.csv"
      = Exported false None (Some summary)
      /\ main malformed_site sample_args Manager.fresh = (1, None, None).
Proof.
  destruct (dialog_runs_selected_exports malformed_site
              (Manager.mk (Some "/lab/dishes") true) false false true ""
              "summary.csv") as (_ & Hmissing & _).
  split; [apply Hmissing; left; split; reflexivity|].
  eexists. split; reflexivity.
Defined.

(** ** The dish cache of the data manager and the loader of the exporter *)

Lemma dish_dict_set_keys (k : string) (v : Dish.t) (dishes : dish_dict) :
  map fst (dish_dict_set k v dishes)
  = if existsb (String.eqb k) (map fst dishes) then map fst dishes
    else (map fst dishes ++ [k])%list.
Proof.
  induction dishes as [|[k' v'] rest IH]; [reflexivity|].
  cbn [dish_dict_set map fst existsb]. rewrite (String.eqb_sym k k').
  destruct (String.eqb k' k); [reflexivity|].
  cbn [map fst orb]. rewrite IH.
  now destruct (existsb (String.eqb k) (map fst rest)).
Qed.

Lemma dish_dict_set_NoDup (k : string) (v : Dish.t) (dishes : dish_dict) :
  NoDup (map fst dishes) -> NoDup (map fst (dish_dict_set k v dishes)).
Proof.
  intros Hnd. rewrite dish_dict_set_keys.
  destruct (existsb (String.eqb k) (map fst dishes)) eqn:Hex; [exact Hnd|].
  apply NoDup_app; [exact Hnd|repeat constructor; intros []|].
  intros x Hx [Hk|[]]. subst x.
  assert (existsb (String.eqb k) (map fst dishes) = true).
  { apply existsb_exists. exists k. split; [exact Hx|apply String.eqb_refl]. }
  congruence.
Qed.

Lemma dish_dict_set_In (k : string) (v : Dish.t) (dishes : dish_dict)
  (k' : string) (v' : Dish.t) :
  In (k', v') (dish_dict_set k v dishes) ->
  In (k', v') dishes \/ (k' = k /\ v' = v).
Proof.
  induction dishes as [|[k0 v0] rest IH]; cbn [dish_dict_set].
  - intros [[= <- <-]|[]]. now right.
  - destruct (String.eqb k0 k) eqn:Hk.
    + apply String.eqb_eq in Hk. subst k0.
      intros [[= <- <-]|Hin]; [now right|left; now right].
    + intros [Heq|Hin]; [left; now left|].
      destruct (IH Hin) as [H|H]; [left; now right|now right].
Qed.

Lemma dish_dict_get_set (k : string) (v : Dish.t) (dishes : dish_dict)
  (k' : string) :
  dish_dict_get k' (dish_dict_set k v dishes)
  = if String.eqb k k' then Some v else dish_dict_get k' dishes.
Proof.
  induction dishes as [|[k0 v0] rest IH]; cbn [dish_dict_set dish_dict_get].
  - reflexivity.
  - destruct (String.eqb k0 k) eqn:Hk; cbn [dish_dict_get].
    + apply String.eqb_eq in Hk. subst k0.
      now destruct (String.eqb k k').
    + destruct (String.eqb k0 k') eqn:Hk'; [|exact IH].
      apply String.eqb_eq in Hk'. subst k0.
      rewrite String.eqb_sym in Hk. now rewrite Hk.
Qed.

Lemma load_dish_files_NoDup (dish_files : list json_file) :
  forall dishes,
    NoDup (map fst dishes) ->
    NoDup (map fst (load_dish_files dish_files dishes)).
Proof.
  induction dish_files as [|[name content] rest IH]; intros dishes Hnd;
    cbn [load_dish_files]; [exact Hnd|].
  destruct content as [[dish_data|]|e]; try now apply IH.
  destruct (str_truthy (get (Dish.dish_id dish_data) "")); apply IH;
    [now apply dish_dict_set_NoDup|exact Hnd].
Qed.

Lemma load_dish_files_In (dish_files : list json_file) :
  forall dishes k dish_data,
    In (k, dish_data) (load_dish_files dish_files dishes) ->
    In (k, dish_data) dishes
    \/ (exists name, In (name, Ok (Mapping dish_data)) dish_files)
       /\ Dish.dish_id dish_data = Some k /\ k <> "".
Proof.
  induction dish_files as [|[name content] rest IH];
    intros dishes k dish_data Hin; cbn [load_dish_files] in Hin;
    [now left|].
  assert (Hrest : forall acc,
             In (k, dish_data) (load_dish_files rest acc) ->
             In (k, dish_data) acc
             \/ (exists name',
                    In (name', Ok (Mapping dish_data))
                      ((name, content) :: rest))
                /\ Dish.dish_id dish_data = Some k /\ k <> "").
  { intros acc H. destruct (IH _ _ _ H) as [H'|((n & Hn) & Hid)];
      [now left|right]. split; [|exact Hid]. exists n. now right. }
  destruct content as [[d|]|e]; try now apply Hrest.
  destruct (str_truthy (get (Dish.dish_id d) "")) eqn:Hid;
    [|now apply Hrest].
  destruct (Hrest _ Hin) as [H|H]; [|now right].
  destruct (dish_dict_set_In _ _ _ _ _ H) as [H'|[-> ->]]; [now left|].
  right. split; [exists name; now left|].
  destruct (Dish.dish_id d) as [id|]; cbn [get] in *; [|discriminate].
  split; [reflexivity|]. now apply str_truthy_iff.
Qed.

Lemma load_dish_files_last (after : list json_file) :
  forall dishes k dish_data,
    dish_dict_get k dishes = Some dish_data ->
    (forall name other,
        In (name, Ok (Mapping other)) after ->
        Dish.dish_id other <> Some k) ->
    dish_dict_get k (load_dish_files after dishes) = Some dish_data.
Proof.
  induction after as [|[name content] rest IH];
    intros dishes k dish_data Hget Hother; cbn [load_dish_files];
    [exact Hget|].
  assert (Hrest : forall name' other,
             In (name', Ok (Mapping other)) rest ->
             Dish.dish_id other <> Some k).
  { intros n o Hin. apply (Hother n o). now right. }
  destruct content as [[d|]|e]; try now apply IH.
  destruct (str_truthy (get (Dish.dish_id d) "")) eqn:Hid;
    [|now apply IH].
  apply IH; [|exact Hrest]. rewrite dish_dict_get_set.
  destruct (String.eqb (get (Dish.dish_id d) "") k) eqn:Hk; [|exact Hget].
  apply String.eqb_eq in Hk. exfalso.
  apply (Hother name d); [now left|].
  destruct (Dish.dish_id d) as [id|]; cbn [get] in *; [now subst|].
  discriminate.
Qed.

Lemma load_dish_files_app (before after : list json_file) :
  forall dishes,
    load_dish_files (before ++ after) dishes
    = load_dish_files after (load_dish_files before dishes).
Proof.
  induction before as [|[name content] rest IH]; intros dishes;
    cbn [app load_dish_files]; [reflexivity|].
  destruct content as [[d|]|e]; try apply IH.
  destruct (str_truthy (get (Dish.dish_id d) "")); apply IH.
Qed.

(** X17.  The dish cache of the data manager reads the same files as the
    exporter but keeps less.  It is empty when the directory is missing or
    cannot be listed.  It holds one dish for each id: every entry is a dish
    with that non-empty [dish_id], and one that the exporter's loader
    returns as well; of the files of one id, the last one listed is the one
    kept. *)
Theorem dish_cache_within_export (json_files : list json_file) :
  (forall dish_dir, load_fish_dishes false dish_dir = [])
  /\ (forall e, load_fish_dishes true (Unreadable e) = [])
  /\ NoDup (map fst (load_fish_dishes true (Listing json_files)))
  /\ (forall k dish_data,
         In (k, dish_data) (load_fish_dishes true (Listing json_files)) ->
         Dish.dish_id dish_data = Some k /\ k <> ""
         /\ In dish_data (_collect_dishes_data (Listing json_files)))
  /\ (forall before name dish_data after k,
         json_files = (before ++ (name, Ok (Mapping dish_data)) :: after)%list ->
         Dish.dish_id dish_data = Some k -> k <> "" ->
         (forall name' other,
             In (name', Ok (Mapping other)) after ->
             Dish.dish_id other <> Some k) ->
         dish_dict_get k (load_fish_dishes true (Listing json_files))
         = Some dish_data).
Proof.
  split; [reflexivity|]. split; [reflexivity|].
  unfold load_fish_dishes, _collect_dishes_data.
  cbn [negb glob bind try_except].
  split; [|split].
  - apply load_dish_files_NoDup. constructor.
  - intros k dish_data Hin.
    destruct (load_dish_files_In _ _ _ _ Hin) as [[]|((name & Hfile) & Hid & Hk)].
    split; [exact Hid|]. split; [exact Hk|].
    rewrite load_files_valid. apply In_valid_dishes.
    exists name. split; [exact Hfile|]. now rewrite Hid.
  - intros before name dish_data after k -> Hid Hk Hafter.
    rewrite load_dish_files_app. cbn [load_dish_files].
    rewrite Hid. cbn [get].
    destruct (str_truthy k) eqn:Htruthy;
      [|apply str_truthy_iff in Hk; congruence].
    apply load_dish_files_last; [|exact Hafter].
    rewrite dish_dict_get_set. now rewrite String.eqb_refl.
Qed.

Lemma dish_cache_within_export_witness :
  map fst (load_fish_dishes true directory_with_duplicates) = ["X3_1"]
  /\ option_map Dish.fish_count
       (dish_dict_get "X3_1"
          (load_fish_dishes true directory_with_duplicates))
     = Some (Some 12)
  /\ List.length (_collect_dishes_data directory_with_duplicates) = 3%nat.
Proof.
  split; [reflexivity|]. split; [|reflexivity].
  destruct (dish_cache_within_export
              [ ("X3_1_20240101.json", Ok (Mapping dish_X3_1));
                ("noid.json",
                 Ok (Mapping (Dish.mk (Some "") None None None None None
                                None None None None None None)));
                ("X3_1_20240102.json",
                 Ok (Mapping (sample_dish "X3" "1" "20240102" 12
                                [ ("20240103", structured 1) ]))) ])
    as (_ & _ & _ & _ & Hlast).
  unfold directory_with_duplicates.
  rewrite (Hlast
             [ ("X3_1_20240101.json", Ok (Mapping dish_X3_1));
               ("noid.json",
                Ok (Mapping (Dish.mk (Some "") None None None None None
                               None None None None None None))) ]
             "X3_1_20240102.json"
             (sample_dish "X3" "1" "20240102" 12
                [ ("20240103", structured 1) ])
             [] "X3_1" eq_refl eq_refl).
  - reflexivity.
  - discriminate.
  - intros name' other [].
Defined.

(** ** The order of the checks in the file *)

Lemma sorted_unique (l1 : list Datum.t) :
  forall l2,
    Permutation l1 l2 ->
    StronglySorted (fun a b => date_le (Datum.date a) (Datum.date b)) l1 ->
    StronglySorted (fun a b => date_le (Datum.date a) (Datum.date b)) l2 ->
    NoDup (map Datum.date l1) ->
    l1 = l2.
Proof.
  induction l1 as [|a l1 IH]; intros l2 Hperm Hs1 Hs2 Hnd.
  - apply Permutation_nil in Hperm. now subst.
  - destruct l2 as [|b l2].
    + apply Permutation_sym, Permutation_nil in Hperm. discriminate.
    + apply StronglySorted_inv in Hs1. destruct Hs1 as [Hs1 Ha].
      apply StronglySorted_inv in Hs2. destruct Hs2 as [Hs2 Hb].
      rewrite Forall_forall in Ha, Hb.
      cbn [map] in Hnd. apply NoDup_cons_iff in Hnd.
      destruct Hnd as [Hnotin Hnd].
      assert (Hab : a = b).
      { assert (Hin_a : In a (b :: l2))
          by (apply (Permutation_in _ Hperm); now left).
        assert (Hin_b : In b (a :: l1))
          by (apply (Permutation_in _ (Permutation_sym Hperm)); now left).
        destruct Hin_a as [->|Hin_a]; [reflexivity|].
        destruct Hin_b as [->|Hin_b]; [reflexivity|].
        exfalso. apply Hnotin.
        rewrite (String.leb_antisym _ _ (Ha b Hin_b) (Hb a Hin_a)).
        now apply in_map. }
      subst b. f_equal.
      apply IH; try assumption. now apply Permutation_cons_inv with a.
Qed.

Lemma collect_perm (qc qc' : list (string * check)) :
  Permutation qc qc' ->
  Permutation (collect_check_data qc) (collect_check_data qc').
Proof.
  induction 1 as [|[t c] l l' _ IH|[t1 c1] [t2 c2] l|l l' l'' _ IH1 _ IH2].
  - constructor.
  - destruct c; cbn [collect_check_data]; [now constructor..|exact IH].
  - destruct c1, c2; cbn [collect_check_data];
      try apply perm_swap; try reflexivity.
  - now transitivity (collect_check_data l').
Qed.

Lemma total_deaths_perm (qc qc' : list (string * check)) :
  Permutation qc qc' -> total_deaths qc = total_deaths qc'.
Proof.
  induction 1 as [|[t c] l l' _ IH|[t1 c1] [t2 c2] l|l l' l'' _ IH1 _ IH2].
  - reflexivity.
  - destruct c; cbn [total_deaths]; now rewrite IH.
  - destruct c1, c2; cbn [total_deaths]; lia.
  - now rewrite IH1.
Qed.

Lemma structured_dates_perm (qc qc' : list (string * check)) :
  Permutation qc qc' ->
  Permutation (structured_dates qc) (structured_dates qc').
Proof.
  induction 1 as [|[t c] l l' _ IH|[t1 c1] [t2 c2] l|l l' l'' _ IH1 _ IH2].
  - constructor.
  - destruct c; cbn [structured_dates]; [now constructor|exact IH..].
  - destruct c1, c2; cbn [structured_dates];
      try apply perm_swap; try reflexivity.
  - now transitivity (structured_dates l').
Qed.

Lemma leb_empty (s : string) : String.leb s "" = true -> s = "".
Proof. destruct s; [reflexivity|discriminate]. Qed.

Lemma latest_date_perm (d1 d2 : Dish.t) :
  Permutation (get (Dish.quality_checks d1) [])
    (get (Dish.quality_checks d2) []) ->
  latest_date_of d1 = latest_date_of d2.
Proof.
  intros Hperm. apply structured_dates_perm in Hperm.
  destruct (latest_date_greatest d1) as [Hall1 Hin1].
  destruct (latest_date_greatest d2) as [Hall2 Hin2].
  rewrite Forall_forall in Hall1, Hall2.
  assert (H12 : latest_date_of d1 = ""
                \/ date_le (latest_date_of d1) (latest_date_of d2)).
  { destruct Hin1 as [H|H]; [now left|right].
    apply Hall2. now apply (Permutation_in _ Hperm). }
  assert (H21 : latest_date_of d2 = ""
                \/ date_le (latest_date_of d2) (latest_date_of d1)).
  { destruct Hin2 as [H|H]; [now left|right].
    apply Hall1. now apply (Permutation_in _ (Permutation_sym Hperm)). }
  unfold date_le in *.
  destruct H12 as [E1|L1], H21 as [E2|L2].
  - congruence.
  - rewrite E1 in *. now apply leb_empty in L2.
  - rewrite E2 in *. now apply leb_empty in L1.
  - now apply String.leb_antisym.
Qed.

Lemma summary_dish_perm (summary : summary_dict) (dish : Dish.t)
  (qc qc' : list (string * check)) :
  Permutation qc qc' ->
  summary_dish summary (with_quality_checks qc dish)
  = summary_dish summary (with_quality_checks qc' dish).
Proof.
  intros Hperm. rewrite !summary_dish_eq.
  assert (Hc : contributes (with_quality_checks qc dish)
               = contributes (with_quality_checks qc' dish)).
  { unfold contributes. cbn.
    destruct qc, qc'; try reflexivity.
    - apply Permutation_nil in Hperm. discriminate.
    - apply Permutation_sym, Permutation_nil in Hperm. discriminate. }
  rewrite Hc. destruct (contributes (with_quality_checks qc' dish));
    [|reflexivity].
  assert (Habsorb : forall g, absorb (with_quality_checks qc dish) g
                              = absorb (with_quality_checks qc' dish) g).
  { intros g. unfold absorb.
    rewrite (latest_date_perm (with_quality_checks qc dish)
               (with_quality_checks qc' dish)) by exact Hperm.
    rewrite !final_count_of_eq. cbn [with_quality_checks Dish.quality_checks
      Dish.fish_count Dish.dof get].
    now rewrite (total_deaths_perm _ _ Hperm). }
  change (group_key (with_quality_checks qc dish))
    with (group_key (with_quality_checks qc' dish)).
  change (new_group (with_quality_checks qc dish))
    with (new_group (with_quality_checks qc' dish)).
  rewrite Habsorb.
  destruct (dict_mem _ summary); [|reflexivity].
  apply dict_update_ext. exact Habsorb.
Qed.

(** X18.  The reports do not depend on the order in which a dish file lists
    its quality checks: when the canonical dates of the checks of a dish
    are pairwise different, listing the same checks in another order gives
    the same detailed rows; and it gives the same summary rows whether the
    dates differ or not. *)
Theorem check_order_irrelevant (dish : Dish.t)
  (qc qc' : list (string * check)) (before after : list Dish.t) :
  Permutation qc qc' ->
  (NoDup (map entry_date (filter is_check qc)) ->
   _process_survivability_data
     (before ++ with_quality_checks qc dish :: after)
   = _process_survivability_data
       (before ++ with_quality_checks qc' dish :: after))
  /\ _process_summary_data (before ++ with_quality_checks qc dish :: after)
     = _process_summary_data
         (before ++ with_quality_checks qc' dish :: after).
Proof.
  intros Hperm. split.
  - intros Hnd. rewrite !process_app, !process_cons. do 2 f_equal.
    rewrite !dish_rows_eq. unfold sorted_check_data.
    cbn [with_quality_checks Dish.quality_checks Dish.fish_count get].
    assert (Hsorted : sort Datum.date String.ltb (collect_check_data qc)
                      = sort Datum.date String.ltb (collect_check_data qc')).
    { apply sorted_unique.
      - rewrite !sort_perm. now apply collect_perm.
      - apply check_data_sorted.
      - apply check_data_sorted.
      - apply (Permutation_NoDup
                 (l := map Datum.date (collect_check_data qc))).
        + apply Permutation_map, Permutation_sym, sort_perm.
        + now rewrite collect_dates. }
    rewrite Hsorted.
    generalize (sort Datum.date String.ltb (collect_check_data qc')).
    generalize (get (Dish.fish_count dish) 0).
    intros remaining check_data. revert remaining.
    induction check_data as [|c rest IH]; intros remaining; [reflexivity|].
    cbn [rows_of]. now rewrite IH.
  - unfold _process_summary_data. do 2 f_equal.
    rewrite !summary_groups_app. cbn [fold_left].
    now rewrite (summary_dish_perm _ dish qc qc' Hperm).
Qed.

Lemma check_order_irrelevant_witness :
  _process_survivability_data
    [with_quality_checks
       [ ("20240103", structured 2); ("20240101", structured 0) ] dish_X1]
  = _process_survivability_data
      [with_quality_checks
         [ ("20240101", structured 0); ("20240103", structured 2) ] dish_X1].
Proof.
  apply (check_order_irrelevant dish_X1
           [ ("20240103", structured 2); ("20240101", structured 0) ]
           [ ("20240101", structured 0); ("20240103", structured 2) ] [] []).
  - apply perm_swap.
  - repeat constructor; cbn; intuition discriminate.
Defined.

(** ** The order in which the dishes are loaded *)

Lemma filter_permutation {A : Type} (p : A -> bool) (l l' : list A) :
  Permutation l l' -> Permutation (filter p l) (filter p l').
Proof.
  induction 1 as [|x l l' _ IH|x y l|l l' l'' _ IH1 _ IH2]; cbn [filter].
  - constructor.
  - destruct (p x); [now constructor|exact IH].
  - destruct (p x), (p y); try reflexivity. apply perm_swap.
  - now transitivity (filter p l').
Qed.

Lemma sum_over_perm (f : Dish.t -> Z) (l l' : list Dish.t) :
  Permutation l l' -> sum_over f l = sum_over f l'.
Proof. induction 1; cbn [sum_over]; lia. Qed.

Lemma max_days_step_comm (m : Z) (a b : Dish.t) :
  max_days_step (max_days_step m a) b = max_days_step (max_days_step m b) a.
Proof.
  unfold max_days_step.
  destruct (str_truthy (latest_date_of a)), (str_truthy (latest_date_of b));
    lia.
Qed.

Lemma max_days_perm (l l' : list Dish.t) :
  Permutation l l' ->
  forall m, fold_left max_days_step l m = fold_left max_days_step l' m.
Proof.
  induction 1 as [|x l l' _ IH|x y l|l l' l'' _ IH1 _ IH2]; intros m;
    cbn [fold_left].
  - reflexivity.
  - apply IH.
  - now rewrite max_days_step_comm.
  - now rewrite IH1.
Qed.

Lemma flat_map_perm {A B : Type} (f : A -> list B) (l l' : list A) :
  Permutation l l' -> Permutation (flat_map f l) (flat_map f l').
Proof.
  induction 1 as [|x l l' _ IH|x y l|l l' l'' _ IH1 _ IH2]; cbn [flat_map].
  - constructor.
  - now apply Permutation_app_head.
  - rewrite !app_assoc. apply Permutation_app_tail, Permutation_app_comm.
  - now transitivity (flat_map f l').
Qed.

Lemma group_figures_perm (members members' : list Dish.t)
  (first first' : Dish.t) :
  Permutation members members' ->
  figures (finalize (group_record first members))
  = figures (finalize (group_record first' members')).
Proof.
  intros Hperm. unfold figures.
  destruct (finalize_fields (group_record first members))
    as (_ & _ & _ & -> & -> & -> & ->).
  destruct (finalize_fields (group_record first' members'))
    as (_ & _ & _ & -> & -> & -> & ->).
  rewrite !finalize_rate by reflexivity.
  cbn [group_record Summary.dish_count Summary.total_initial
       Summary.total_surviving Summary.max_days].
  unfold max_days_over.
  rewrite (Permutation_length Hperm), (sum_over_perm _ _ _ Hperm),
    (sum_over_perm surviving_of _ _ Hperm), (max_days_perm _ _ Hperm).
  reflexivity.
Qed.

(** X19.  The order in which the loader returns the dishes changes the
    order of the detailed rows and nothing else in them, and it changes no
    figure of the summary: for every group key, the row of the group has
    the same [dish_count], [total_initial], [total_surviving],
    [survival_rate] and [max_days] for every order of the same dishes. *)
Theorem load_order_irrelevant (dishes dishes' : list Dish.t) :
  Permutation dishes dishes' ->
  Permutation (_process_survivability_data dishes)
    (_process_survivability_data dishes')
  /\ forall k,
      option_map (fun g => figures (finalize g))
        (dict_get k (summary_groups dishes))
      = option_map (fun g => figures (finalize g))
          (dict_get k (summary_groups dishes')).
Proof.
  intros Hperm. split.
  - rewrite !process_flat_map. now apply flat_map_perm.
  - intros k. rewrite !summary_groups_get.
    pose proof (filter_permutation (member k) _ _ Hperm) as Hmembers.
    destruct (filter (member k) dishes) as [|first rest] eqn:E1;
      destruct (filter (member k) dishes') as [|first' rest'] eqn:E2.
    + reflexivity.
    + apply Permutation_nil in Hmembers. discriminate.
    + apply Permutation_sym, Permutation_nil in Hmembers. discriminate.
    + cbn [group_of option_map]. f_equal.
      now apply group_figures_perm.
Qed.

Lemma load_order_irrelevant_witness :
  Permutation
    (_process_survivability_data [dish_X3_1; dish_X3_2])
    (_process_survivability_data [dish_X3_2; dish_X3_1])
  /\ option_map (fun g => figures (finalize g))
       (dict_get (group_key dish_X3_1)
          (summary_groups [dish_X3_1; dish_X3_2]))
     = option_map (fun g => figures (finalize g))
         (dict_get (group_key dish_X3_1)
            (summary_groups [dish_X3_2; dish_X3_1])).
Proof.
  destruct (load_order_irrelevant [dish_X3_1; dish_X3_2]
              [dish_X3_2; dish_X3_1] (perm_swap _ _ _)) as [Hrows Hfig].
  split; [exact Hrows|apply Hfig].
Defined.
